(** * tzhsoj-assignment-checker: a shallow embedding of [main.py]

    The scraper walks the paginated record pages of an online judge,
    turns each page's table into submission records, decides whether a
    user has a full-score record for a problem, and fills a grid of
    outcomes for generated usernames.

    The HTML parser, the HTTP session, the clock and the file system
    are libraries outside the repository.  They are modelled as follows:

    - a page's markup is the tree BeautifulSoup builds for it
      ([PageElement]); [find], [find_all] and [.string] follow bs4's
      documented behaviour on that tree, and [get_text] is a parameter
      of the parser;
    - [session.get] is a function on an abstract [World] that either
      raises a [RequestException] or yields a [Response];
    - [print], [time.sleep] and every GET are recorded in an event
      trace, file writes in a map from file name to content; whether
      [open] raises for a name, and whether the pandas export raises,
      are parameters;
    - the [logger] calls and the reading of [sys.argv] are left out. *)

From Stdlib Require Import ZArith Lia Ascii String List.
From Stdlib Require Import DecimalString DecimalZ DecimalPos DecimalN DecimalFacts.
From stdpp Require Import base option list strings gmap.
From Equations.Prop Require Import Equations Logic.
Import ListNotations.

Local Open Scope string_scope.
Local Open Scope Z_scope.

(** ** Python values *)

Inductive Exception : Type :=
| IndexError
| KeyError (key : string)
| OtherException (msg : string)
| OSError (filename : string).

(** [str(i)] for a Python int. *)
Definition str (i : Z) : string := NilZero.string_of_int (Z.to_int i).

(** [range(a, b)] *)
Definition range (a b : Z) : list Z :=
  map (fun k => a + Z.of_nat k) (seq 0 (Z.to_nat (b - a))).

(** [len(l)] *)
Definition len {A} (l : list A) : Z := Z.of_nat (length l).

(** [c.isspace()] on the ASCII range: tab, LF, VT, FF, CR, FS, GS, RS,
    US and space. *)
Definition isspace (c : ascii) : bool :=
  let n := nat_of_ascii c in
  ((9 <=? n)%nat && (n <=? 13)%nat) || ((28 <=? n)%nat && (n <=? 32)%nat).

Fixpoint lstrip (s : string) : string :=
  match s with
  | EmptyString => EmptyString
  | String c s' => if isspace c then lstrip s' else s
  end.

Fixpoint rstrip (s : string) : string :=
  match s with
  | EmptyString => EmptyString
  | String c s' =>
      match rstrip s' with
      | EmptyString => if isspace c then EmptyString else String c EmptyString
      | t => String c t
      end
  end.

(** [s.strip()] for a string of ASCII characters. *)
Definition strip (s : string) : string := rstrip (lstrip s).

(** ** The BeautifulSoup tree

    [class] is the value bs4's [html.parser] builder stores for the
    multi-valued [class] attribute: the list of class names, [None]
    when the attribute is absent. *)

#[warnings="-register-all"]
Inductive PageElement : Type :=
| NavigableString (s : string)
| Tag (name : string) (class : option (list string)) (contents : list PageElement).

(** [tag.descendants]: every node below [tag], in document order. *)
Fixpoint descendants (e : PageElement) : list PageElement :=
  match e with
  | NavigableString _ => []
  | Tag _ _ contents =>
      (fix below (l : list PageElement) : list PageElement :=
         match l with
         | [] => []
         | c :: l' => (c :: descendants c ++ below l')%list
         end) contents
  end.

Definition is_tag (name : string) (e : PageElement) : bool :=
  match e with
  | Tag n _ _ => String.eqb n name
  | NavigableString _ => false
  end.

(** [tag.string]: the single string below a tag, through single-child
    chains; [None] when some tag on the way has no or several children. *)
Fixpoint string_of (e : PageElement) : option string :=
  match e with
  | NavigableString s => Some s
  | Tag _ _ [c] => string_of c
  | Tag _ _ _ => None
  end.

(** [tag.get('class', [])] *)
Definition get_class (e : PageElement) : list string :=
  match e with
  | Tag _ (Some cl) _ => cl
  | _ => []
  end.

(** [x in l] for a list of strings. *)
Definition contains (x : string) (l : list string) : bool :=
  existsb (String.eqb x) l.

(** [soup.find_all(name)] *)
Definition find_all (name : string) (e : PageElement) : list PageElement :=
  List.filter (is_tag name) (descendants e).

(** [soup.find(name)]: the first match of [find_all], or [None]. *)
Definition find (name : string) (e : PageElement) : option PageElement :=
  List.find (is_tag name) (descendants e).

(** The filter of [soup.find(name, string=s)]: a tag called [name]
    whose [.string] is [s]. *)
Definition is_tag_with_string (name s : string) (e : PageElement) : bool :=
  is_tag name e &&
  match string_of e with
  | Some t => String.eqb t s
  | None => false
  end.

Definition find_string (name s : string) (e : PageElement) : option PageElement :=
  List.find (is_tag_with_string name s) (descendants e).

(** Every string below the element, stripped, the empty ones
    dropped.  These are the strings that [get_text(strip=True)] joins
    when the tree holds no comment and its strings are ASCII. *)
Fixpoint stripped_strings (e : PageElement) : list string :=
  match e with
  | NavigableString s =>
      match strip s with
      | EmptyString => []
      | t => [t]
      end
  | Tag _ _ contents =>
      (fix below (l : list PageElement) : list string :=
         match l with
         | [] => []
         | c :: l' => (stripped_strings c ++ below l')%list
         end) contents
  end.

(** The stripped strings of an element, joined. *)
Definition text_of (e : PageElement) : string :=
  fold_right String.append EmptyString (stripped_strings e).

(** A [get_text] to run the sample pages with.  It raises nothing,
    and on a tree without comments whose strings are ASCII it returns
    what [tag.get_text(strip=True)] returns; the statements about the
    parser do not depend on it. *)
Definition Tag_get_text (e : PageElement) : Exception + string :=
  inr (text_of e).

(** ** Exceptions as values *)

Definition bind {E A B} (m : E + A) (k : A -> E + B) : E + B :=
  match m with
  | inl e => inl e
  | inr a => k a
  end.

Notation "'let!' x ':=' m 'in' k" := (bind m (fun x => k))
  (at level 10, x name, m at level 100, k at level 200).

(** ** Records of the scraper *)

(** One row of the judge's record table: the dict that
    [parse_submission_page] builds, with its keys as fields. *)
Record Submission : Type := mkSubmission {
  time : string;
  problem : string;
  user : string;
  language : string;
  status : string;
  score : string;
  time_used : string;
  memory_used : string
}.

(** The [params] dict of one GET. *)
Record Params : Type := mkParams {
  param_uidOrName : string;
  param_pid : string;
  param_tid : string;
  param_lang : string;
  param_status : string;
  param_page : Z
}.

(** What [requests] raises: every exception it raises derives from
    [requests.exceptions.RequestException]. *)
Inductive RequestException : Type :=
| Timeout
| ConnectionError
| HTTPError (status_code : Z)
| OtherRequestException (msg : string).

(** A response; [text] is the tree BeautifulSoup builds for
    [response.text]. *)
Record Response : Type := mkResponse {
  status_code : Z;
  text : PageElement
}.

(** [response.raise_for_status()] *)
Definition raise_for_status (r : Response) : RequestException + Response :=
  if (400 <=? status_code r) && (status_code r <? 600)
  then inl (HTTPError (status_code r))
  else inr r.

(** What the program writes into a file: the records of a job, or
    the grid with its column labels. *)
Inductive FileContent : Type :=
| JsonFile (submissions : list Submission)
| XlsxFile (grid : gmap string (list Z)) (columns : list string).

Inductive Event : Type :=
| GET (url : string) (params : Params)
| Sleep (seconds : Z)
| Print (line : string).

(** The pages asked for, in order. *)
Definition fetched_pages (tr : list Event) : list Z :=
  omap (fun ev => match ev with GET _ p => Some (param_page p) | _ => None end) tr.

(** How a pass through the body of a [while] ends. *)
Inductive Control (A B : Type) : Type :=
| Again (a : A)
| Break (b : B).
Arguments Again {A B} a.
Arguments Break {A B} b.

Definition base_url : string := "https://tzhsoj.cn".

Definition sentinel : string := "100Accepted".

(** [usernameFormat+str(i) if i > 9 else usernameFormat + '0' + str(i)] *)
Definition username_of (usernameFormat : string) (i : Z) : string :=
  if 9 <? i
  then String.append usernameFormat (str i)
  else String.append (String.append usernameFormat "0") (str i).

(** [f"submissions_{username}_{pid}.json"] *)
Definition output_file (username pid : string) : string :=
  String.append "submissions_"
    (String.append username (String.append "_" (String.append pid ".json"))).

(** [f"{i}. [{sub['time']}] {sub['problem']} - {sub['status']} ({sub['score']})"] *)
Definition submission_line (i : Z) (sub : Submission) : string :=
  String.append (str i) (String.append ". ["
    (String.append (time sub) (String.append "] "
      (String.append (problem sub) (String.append " - "
        (String.append (status sub) (String.append " ("
          (String.append (score sub) ")")))))))).

(** ** Sample pages and judges *)

Module Sample.

Definition td (s : string) : PageElement := Tag "td" None [NavigableString s].
Definition th (s : string) : PageElement := Tag "th" None [NavigableString s].
Definition tr (cells : list PageElement) : PageElement := Tag "tr" None cells.

Definition header : PageElement :=
  tr (map th ["Time"; "Problem"; "User"; "Language"; "Status"; "Score";
              "Time used"; "Memory used"]).

Definition row7 : PageElement :=
  tr (map td ["2024-05-01 10:00"; "P1"; "stu01"; "C++"; "Accepted"; "100"; " 12ms "]).

Definition row8 : PageElement :=
  tr (map td ["2024-05-01 09:00"; "P1"; "stu01"; "C++"; "Wrong Answer"; "40";
              "15ms"; "2.1 MiB"]).

Definition short_row : PageElement := tr (map td ["2024-05-01"; "P1"; "stu01"]).

Definition document (body : list PageElement) : PageElement :=
  Tag "[document]" None [Tag "html" None [Tag "body" None body]].

Definition table (rows : list PageElement) : PageElement :=
  Tag "table" (Some ["table"]) (header :: rows).

Definition anchor (class : option (list string)) (label : string) : PageElement :=
  Tag "a" class [NavigableString label].

Definition page_two_rows : PageElement := document [table [row7; row8]].

Definition page_with_short_row : PageElement :=
  document [table [row7; short_row; row8]].

Definition page_without_table : PageElement :=
  document [Tag "p" None [NavigableString "No records"]].

(** The first "Next" link is disabled, a second one is not. *)
Definition page_two_next : PageElement :=
  document [table [row7];
            anchor (Some ["page-link"; "disabled"]) "Next";
            anchor (Some ["page-link"]) "Next"].

(** Links whose text only contains "Next". *)
Definition page_near_next : PageElement :=
  document [table [row7];
            anchor None " Next ";
            anchor None "Next page";
            Tag "a" None [NavigableString "Ne"; Tag "b" None [NavigableString "xt"]]].

Definition page_with_next : PageElement :=
  document [table [row7; row8]; anchor (Some ["page-link"]) "Next"].

(** A judge that answers from a script, one entry per GET, and
    refuses the connection once the script is used up. *)
Definition Script : Type := list (RequestException + Response).

Definition scripted_get (url : string) (params : Params) (w : Script)
  : (RequestException + Response) * Script :=
  match w with
  | [] => (inl ConnectionError, [])
  | r :: w' => (r, w')
  end.

(** A judge that answers every GET with the same page. *)
Definition constant_get (html : PageElement) (url : string) (params : Params)
    (w : unit) : (RequestException + Response) * unit :=
  (inr (mkResponse 200 html), w).

Definition accepted_row : PageElement :=
  tr (map td ["100Accepted"; "P1"; "stu01"; "C++"; "Accepted"; "100"; "1ms"]).

Definition page_accepted : PageElement := document [table [row7; accepted_row]].

Definition accepted : Submission :=
  mkSubmission "100Accepted" "P1" "stu01" "C++" "Accepted" "100" "1ms" "N/A".

Definition rejected : Submission :=
  mkSubmission "2024-05-01 09:00" "P1" "stu01" "C++" "Wrong Answer" "40"
    "15ms" "2.1 MiB".

(** The first page has records and a "Next" link, the second GET is
    answered with status 503. *)
Definition outage : Script :=
  [inr (mkResponse 200 page_with_next);
   inr (mkResponse 503 page_without_table)].

(** The only page has no table. *)
Definition no_records : Script := [inr (mkResponse 200 page_without_table)].

(** A [get_text] that raises on a cell without text. *)
Definition brittle_get_text (e : PageElement) : Exception + string :=
  match stripped_strings e with
  | [] => inl (OtherException "empty cell")
  | _ => inr (text_of e)
  end.

Definition blank_row : PageElement :=
  tr (map td ["2024-05-01 08:00"; "P1"; "stu01"; "C++"; "  "; "0"; "1ms"]).

Definition page_with_blank_row : PageElement :=
  document [table [row7; blank_row; row8]].

(** Two pages of records; the second has no "Next" link. *)
Definition two_pages : Script :=
  [inr (mkResponse 200 page_with_next); inr (mkResponse 200 page_two_rows)].

(** A working directory without subdirectories: [open] raises for a
    name with a slash in it and for no other. *)
Definition flat_directory (filename : string) : option Exception :=
  match String.index 0 "/" filename with
  | Some _ => Some (OSError filename)
  | None => None
  end.

(** An export that does not raise. *)
Definition export_ok (grid : gmap string (list Z)) (columns : list string)
  : option Exception := None.

Definition nine_cells : list PageElement :=
  map td ["2024-05-01 09:00"; "P1"; "stu01"; "C++"; "Wrong Answer"; "40";
          "15ms"; "2.1 MiB"; "extra"].

End Sample.

Section Scraper.

(** [cols[i].get_text(strip=True)], which the row loop guards with
    [try ... except Exception]. *)
Variable get_text : PageElement -> Exception + string.

(** The judge and the network between it and the session. *)
Variable World : Type.
Variable session_get :
  string -> Params -> World -> (RequestException + Response) * World.

(** The file system: what [open(filename, 'w')] raises for a name, if
    it raises. *)
Variable open_w : string -> option Exception.

(** pandas: what [pd.DataFrame.from_dict(result, orient='index',
    columns=pids)] followed by [df.to_excel("result.xlsx")] raises,
    if it raises. *)
Variable to_excel : gmap string (list Z) -> list string -> option Exception.

(** *** PageParser *)

(** [cols[i].get_text(strip=True)] *)
Definition cell_text (cols : list PageElement) (i : nat) : Exception + string :=
  match nth_error cols i with
  | Some c => get_text c
  | None => inl IndexError
  end.

(** The dict display of lines 101-110; its items are evaluated in
    order. *)
Definition make_submission (cols : list PageElement) : Exception + Submission :=
  let! t := cell_text cols 0 in
  let! p := cell_text cols 1 in
  let! u := cell_text cols 2 in
  let! l := cell_text cols 3 in
  let! s := cell_text cols 4 in
  let! sc := cell_text cols 5 in
  let! tu := cell_text cols 6 in
  let! mu := (if 7 <? len cols then cell_text cols 7 else inr "N/A") in
  inr (mkSubmission t p u l s sc tu mu).

(** The [for row in rows] loop, [submissions] being the list built
    so far. *)
Fixpoint parse_rows (rows : list PageElement) (submissions : list Submission)
  : list Submission :=
  match rows with
  | [] => submissions
  | row :: rows' =>
      let cols := find_all "td" row in
      if len cols <? 7 then parse_rows rows' submissions
      else
        match make_submission cols with
        | inr submission => parse_rows rows' (submissions ++ [submission])%list
        | inl _ => parse_rows rows' submissions
        end
  end.

Definition parse_submission_page (html : PageElement) : list Submission :=
  match find "table" html with
  | None => []
  | Some table => parse_rows (drop 1 (find_all "tr" table)) []
  end.

Definition has_next_page (html : PageElement) : bool :=
  match find_string "a" "Next" html with
  | None => false
  | Some next_button => negb (contains "disabled" (get_class next_button))
  end.

(** *** SubmissionCollector *)

Record IO : Type := mkIO {
  world : World;
  trace : list Event
}.

Definition emit (ev : Event) (io : IO) : IO :=
  mkIO (world io) (trace io ++ [ev])%list.

(** [self.session.get(f"{self.base_url}/record", params=params,
    timeout=10)] followed by [response.raise_for_status()]. *)
Definition get_record (uid_or_name pid : string) (page : Z) (io : IO)
  : (RequestException + Response) * IO :=
  let url := String.append base_url "/record" in
  let params := mkParams uid_or_name pid "" "" "" page in
  let '(r, w) := session_get url params (world io) in
  (let! r' := r in raise_for_status r', mkIO w (trace io ++ [GET url params])%list).

(** One pass through the body of [while page <= max_pages]. *)
Definition loop_body (uid_or_name pid : string) (page : Z)
    (submissions : list Submission) (io : IO)
  : Control (Z * list Submission * IO) (list Submission * IO) :=
  let '(r, io1) := get_record uid_or_name pid page io in
  match r with
  | inl _ => Break (submissions, io1)
  | inr response =>
      let page_submissions := parse_submission_page (text response) in
      match page_submissions with
      | [] => Break (submissions, io1)
      | _ =>
          let submissions := (submissions ++ page_submissions)%list in
          if negb (has_next_page (text response))
          then Break (submissions, io1)
          else Again (page + 1, submissions, emit (Sleep 1) io1)
      end
  end.

Equations? fetch_loop (uid_or_name pid : string) (max_pages page : Z)
    (submissions : list Submission) (io : IO)
  : list Submission * IO by wf (Z.to_nat (max_pages + 1 - page)) lt :=
  fetch_loop uid_or_name pid max_pages page submissions io
    with Z_le_dec page max_pages := {
    | right _ := (submissions, io)
    | left _ with inspect (loop_body uid_or_name pid page submissions io) := {
        | exist _ (Break out) _ := out
        | exist _ (Again (page', submissions', io')) Hbody :=
            fetch_loop uid_or_name pid max_pages page' submissions' io' } }.
Proof.
  unfold loop_body in Hbody.
  destruct (get_record _ _ _ _) as [[e|response] io1]; [discriminate|].
  destruct (parse_submission_page (text response)); [discriminate|].
  destruct (negb (has_next_page (text response))); [discriminate|].
  injection Hbody as <- _ _. lia.
Qed.

Definition fetch_submissions (uid_or_name pid : string) (max_pages : Z) (io : IO)
  : list Submission * IO :=
  fetch_loop uid_or_name pid max_pages 1 [] io.

(** *** OutcomeEvaluator and BatchRunner *)

(** The interpreter state [checker] and [main] act on: the module
    global [result], the files written, and the outside world. *)
Record State : Type := mkState {
  result : gmap string (list Z);
  files : gmap string FileContent;
  io : IO
}.

(** [for i, sub in enumerate(submissions, 1): ... else: ...]: the
    outcome the loop appends to [result[username]], and the trace
    after its prints. *)
Fixpoint checker_loop (i : Z) (submissions : list Submission) (io : IO) : Z * IO :=
  match submissions with
  | [] => (0, io)
  | sub :: rest =>
      let io1 := emit (Print (submission_line i sub)) io in
      if String.eqb (time sub) sentinel then (1, io1)
      else checker_loop (i + 1) rest io1
  end.

(** [result[username].append(x)] *)
Definition result_append (username : string) (x : Z)
    (result : gmap string (list Z)) : Exception + gmap string (list Z) :=
  match result !! username with
  | Some outcomes => inr (<[username := (outcomes ++ [x])%list]> result)
  | None => inl (KeyError username)
  end.

(** [with open(filename, 'w', encoding='utf-8') as f: json.dump(...)]:
    [open] raises, or the file then holds the records. *)
Definition save_to_file (submissions : list Submission) (filename : string)
    (files : gmap string FileContent) : Exception + gmap string FileContent :=
  match open_w filename with
  | Some e => inl e
  | None => inr (<[filename := JsonFile submissions]> files)
  end.

Definition checker (username pid : string) (st : State) : Exception + State :=
  let '(submissions, io1) := fetch_submissions username pid 5 (io st) in
  let io2 :=
    emit (Print (String.append "Fetched "
           (String.append (str (len submissions)) " submissions in total"))) io1 in
  let '(outcome, io3) := checker_loop 1 submissions io2 in
  let! result' := result_append username outcome (result st) in
  let! files' :=
    save_to_file submissions (output_file username pid) (files st) in
  inr (mkState result' files' io3).

(** [for pid in pids: checker(username, pid)] *)
Fixpoint for_pids (username : string) (pids : list string) (st : State)
  : Exception + State :=
  match pids with
  | [] => inr st
  | pid :: pids' =>
      let! st' := checker username pid st in
      for_pids username pids' st'
  end.

(** [for i in range(1, counts+1): ...] over the values of the range. *)
Fixpoint for_members (usernameFormat : string) (indices : list Z)
    (pids : list string) (st : State) : Exception + State :=
  match indices with
  | [] => inr st
  | i :: indices' =>
      let username := username_of usernameFormat i in
      let st1 := mkState (<[username := []]> (result st)) (files st) (io st) in
      let! st2 := for_pids username pids st1 in
      for_members usernameFormat indices' pids st2
  end.

(** The loop of lines 172-176. *)
Definition batch (usernameFormat : string) (counts : Z) (pids : list string)
    (st : State) : Exception + State :=
  for_members usernameFormat (range 1 (counts + 1)) pids st.

(** Lines 177-178: the grid goes to [result.xlsx], or pandas raises. *)
Definition export (pids : list string) (st : State) : Exception + State :=
  match to_excel (result st) pids with
  | Some e => inl e
  | None =>
      inr (mkState (result st)
             (<["result.xlsx" := XlsxFile (result st) pids]> (files st))
             (io st))
  end.

(** [main] after it has read [sys.argv]: [usernameFormat] is
    [sys.argv[1]], [counts] is [int(sys.argv[2])], [pids] is
    [sys.argv[3:]]. *)
Definition main (usernameFormat : string) (counts : Z) (pids : list string)
    (st : State) : Exception + State :=
  let! st' := batch usernameFormat counts pids st in
  export pids st'.

(** The state when the module has been loaded: [result = {}]. *)
Definition initial (w : World) : State := mkState ∅ ∅ (mkIO w []).

(** *** Vocabulary of the statements *)

(** The events the evaluation loop prints for [submissions], the
    first of them numbered [i]. *)
Fixpoint prints (i : Z) (submissions : list Submission) : list Event :=
  match submissions with
  | [] => []
  | sub :: rest => Print (submission_line i sub) :: prints (i + 1) rest
  end.

(** A row that the row loop turns into a record. *)
Definition well_formed_row (row : PageElement) (sub : Submission) : Prop :=
  7 <= len (find_all "td" row) /\ make_submission (find_all "td" row) = inr sub.

(** A row that the row loop passes over: too few cells, or an
    exception while its cells are read. *)
Definition malformed_row (row : PageElement) : Prop :=
  len (find_all "td" row) < 7 \/
  exists e, make_submission (find_all "td" row) = inl e.

(** The fields of [sub] are the texts of the cells of [row], by
    position; [txt] gives the text of a cell. *)
Definition positional (txt : PageElement -> string) (row : PageElement)
    (sub : Submission) : Prop :=
  let cols := find_all "td" row in
  option_map txt (nth_error cols 0) = Some (time sub) /\
  option_map txt (nth_error cols 1) = Some (problem sub) /\
  option_map txt (nth_error cols 2) = Some (user sub) /\
  option_map txt (nth_error cols 3) = Some (language sub) /\
  option_map txt (nth_error cols 4) = Some (status sub) /\
  option_map txt (nth_error cols 5) = Some (score sub) /\
  option_map txt (nth_error cols 6) = Some (time_used sub) /\
  memory_used sub = default "N/A" (option_map txt (nth_error cols 7)).

(** The filter of [soup.find('a', string='Next')]. *)
Definition is_next_anchor (e : PageElement) : bool :=
  is_tag_with_string "a" "Next" e.

Definition disabled (e : PageElement) : bool :=
  contains "disabled" (get_class e).

(** [a] is the first "Next" anchor of [html] in document order. *)
Definition first_next_anchor (html a : PageElement) : Prop :=
  exists before after,
    descendants html = (before ++ a :: after)%list /\
    Forall (fun x => is_next_anchor x = false) before /\
    is_next_anchor a = true.

(** The GET of [page] fails: the session raises, or the response has
    an error status and [raise_for_status] raises. *)
Definition transport_failure (uid_or_name pid : string) (page : Z) (io : IO)
  : Prop :=
  match session_get (String.append base_url "/record")
          (mkParams uid_or_name pid "" "" "" page) (world io) with
  | (inl _, _) => True
  | (inr r, _) => 400 <= status_code r < 600
  end.

(** The runs of the collection loop: [collecting ... page submissions
    io] holds when the loop stands at its head with these values,
    every earlier page having been fetched, parsed to at least one
    record and followed by an enabled "Next". *)
Inductive collecting (uid_or_name pid : string) (max_pages : Z) (io0 : IO)
  : Z -> list Submission -> IO -> Prop :=
| collecting_start : collecting uid_or_name pid max_pages io0 1 [] io0
| collecting_next page submissions io response io1 :
    collecting uid_or_name pid max_pages io0 page submissions io ->
    page <= max_pages ->
    get_record uid_or_name pid page io = (inr response, io1) ->
    parse_submission_page (text response) <> [] ->
    has_next_page (text response) = true ->
    collecting uid_or_name pid max_pages io0 (page + 1)
      (submissions ++ parse_submission_page (text response))%list
      (emit (Sleep 1) io1).

(** The outcome in the words of the specification: 1 when at least
    one record has the sentinel in its [time] field, 0 otherwise. *)
Definition evaluate_spec (submissions : list Submission) : Z :=
  if existsb (fun sub => String.eqb (time sub) sentinel) submissions
  then 1 else 0.

(** The line [checker] prints before its loop. *)
Definition total_line (submissions : list Submission) : string :=
  String.append "Fetched "
    (String.append (str (len submissions)) " submissions in total").

(** The jobs of one username, run one after the other from [io]:
    each job collects with a cap of five pages and contributes the
    outcome of what it collected. *)
Inductive row_outcomes (username : string)
  : list string -> IO -> list Z -> IO -> Prop :=
| row_done io : row_outcomes username [] io [] io
| row_job pid pids io submissions io1 io2 outcomes io3 :
    fetch_submissions username pid 5 io = (submissions, io1) ->
    (checker_loop 1 submissions (emit (Print (total_line submissions)) io1)).2
      = io2 ->
    row_outcomes username pids io2 outcomes io3 ->
    row_outcomes username (pid :: pids) io
      (evaluate_spec submissions :: outcomes) io3.

(** *** Further vocabulary *)

(** The GET that [fetch_submissions] issues for [page]. *)
Definition GET_record (uid_or_name pid : string) (page : Z) : Event :=
  GET (String.append base_url "/record")
    (mkParams uid_or_name pid "" "" "" page).

(** [k] pages read one after the other from page [first], each
    followed by the pause of line 68. *)
Fixpoint full_pages (uid_or_name pid : string) (first : Z) (k : nat)
  : list Event :=
  match k with
  | O => []
  | S k' =>
      GET_record uid_or_name pid first :: Sleep 1 ::
        full_pages uid_or_name pid (first + 1) k'
  end.


(** [c in s] for a character and a string. *)
Fixpoint occurs (c : ascii) (s : string) : bool :=
  match s with
  | EmptyString => false
  | String c' s' => Ascii.eqb c c' || occurs c s'
  end.

(** The GETs in the trace of a state. *)
Definition requests (st : State) : nat :=
  length (fetched_pages (trace (io st))).

(** ** Facts *)

(** *** OutcomeEvaluator *)

Lemma checker_loop_match i before sub after io :
  Forall (fun s => time s <> sentinel) before ->
  time sub = sentinel ->
  checker_loop i (before ++ sub :: after) io =
    (1, mkIO (world io) (trace io ++ prints i (before ++ [sub]))).
Proof.
  intros Hbefore Hsub. revert i io.
  induction Hbefore as [|s before Hs _ IH]; intros i io; simpl.
  - rewrite Hsub. simpl. reflexivity.
  - destruct (String.eqb_spec (time s) sentinel) as [Heq|_]; [contradiction|].
    rewrite IH. simpl. rewrite <- app_assoc. reflexivity.
Qed.

Lemma checker_loop_no_match i submissions io :
  Forall (fun s => time s <> sentinel) submissions ->
  checker_loop i submissions io =
    (0, mkIO (world io) (trace io ++ prints i submissions)).
Proof.
  intros Hall. revert i io.
  induction Hall as [|s rest Hs _ IH]; intros i io; simpl.
  - rewrite app_nil_r. destruct io; reflexivity.
  - destruct (String.eqb_spec (time s) sentinel) as [Heq|_]; [contradiction|].
    rewrite IH. simpl. rewrite <- app_assoc. reflexivity.
Qed.

(** C1. The evaluation loop of [checker] goes through the records in
    order.  At the first record whose [time] is "100Accepted" it
    yields 1, having printed that record and those before it and
    none after it; when no record has that [time] it yields 0, and
    so it does for no records at all. *)
Theorem checker_loop_first_sentinel (submissions : list Submission) (io : IO) :
  (forall before sub after,
      submissions = (before ++ sub :: after)%list ->
      Forall (fun s => time s <> sentinel) before ->
      time sub = sentinel ->
      checker_loop 1 submissions io =
        (1, mkIO (world io) (trace io ++ prints 1 (before ++ [sub])))) /\
  (Forall (fun s => time s <> sentinel) submissions ->
   checker_loop 1 submissions io =
     (0, mkIO (world io) (trace io ++ prints 1 submissions))) /\
  checker_loop 1 [] io = (0, io).
Proof.
  split; [|split].
  - intros before sub after -> Hbefore Hsub.
    apply checker_loop_match; assumption.
  - apply checker_loop_no_match.
  - reflexivity.
Qed.

(** *** PageParser *)

Lemma parse_rows_acc rows submissions :
  parse_rows rows submissions = (submissions ++ parse_rows rows [])%list.
Proof.
  revert submissions.
  induction rows as [|row rows IH]; intros submissions; simpl.
  - rewrite app_nil_r. reflexivity.
  - destruct (len (find_all "td" row) <? 7); [apply IH|].
    destruct (make_submission (find_all "td" row)) as [e|sub]; [apply IH|].
    rewrite (IH (submissions ++ [sub])%list), (IH [sub]).
    rewrite <- app_assoc. reflexivity.
Qed.

Lemma parse_rows_app rows1 rows2 :
  parse_rows (rows1 ++ rows2) [] =
    (parse_rows rows1 [] ++ parse_rows rows2 [])%list.
Proof.
  rewrite <- parse_rows_acc.
  generalize (@nil Submission) as submissions.
  induction rows1 as [|row rows1 IH]; intros submissions; simpl.
  - reflexivity.
  - destruct (len (find_all "td" row) <? 7); [apply IH|].
    destruct (make_submission (find_all "td" row)); apply IH.
Qed.

Lemma parse_rows_malformed row rows submissions :
  malformed_row row ->
  parse_rows (row :: rows) submissions = parse_rows rows submissions.
Proof.
  intros [Hshort|[e He]]; simpl.
  - destruct (Z.ltb_spec (len (find_all "td" row)) 7); [reflexivity|lia].
  - rewrite He. destruct (len (find_all "td" row) <? 7); reflexivity.
Qed.

Lemma parse_rows_well_formed row sub rows submissions :
  well_formed_row row sub ->
  parse_rows (row :: rows) submissions =
    parse_rows rows (submissions ++ [sub])%list.
Proof.
  intros [Hlen Hsub]; simpl. rewrite Hsub.
  destruct (Z.ltb_spec (len (find_all "td" row)) 7); [lia|reflexivity].
Qed.

Lemma parse_rows_keeps row sub rows :
  In row rows -> well_formed_row row sub -> In sub (parse_rows rows []).
Proof.
  intros Hin Hrow.
  destruct (List.in_split _ _ Hin) as (rows1 & rows2 & Hrows). subst rows.
  rewrite parse_rows_app, (parse_rows_well_formed _ _ _ _ Hrow).
  rewrite (parse_rows_acc rows2). apply in_or_app. right. simpl. left.
  reflexivity.
Qed.

(** When no cell raises, a row of seven cells or more yields the
    record of its cell texts. *)
Lemma make_submission_positional (txt : PageElement -> string) row :
  (forall c, In c (find_all "td" row) -> get_text c = inr (txt c)) ->
  7 <= len (find_all "td" row) ->
  exists sub, well_formed_row row sub /\ positional txt row sub.
Proof.
  unfold well_formed_row, positional, make_submission, len.
  generalize (find_all "td" row) as cols.
  intros cols Hget Hlen.
  assert (Hcell : forall i c, nth_error cols i = Some c ->
                              cell_text cols i = inr (txt c)).
  { intros i c Hi. unfold cell_text. rewrite Hi.
    apply Hget. apply (nth_error_In _ _ Hi). }
  destruct cols as [|c0 [|c1 [|c2 [|c3 [|c4 [|c5 [|c6 rest]]]]]]];
    simpl in Hlen; try lia.
  rewrite (Hcell 0%nat c0), (Hcell 1%nat c1), (Hcell 2%nat c2),
    (Hcell 3%nat c3), (Hcell 4%nat c4), (Hcell 5%nat c5), (Hcell 6%nat c6)
    by reflexivity.
  destruct rest as [|c7 rest].
  - eexists. split; [split; [simpl length; lia|reflexivity]|].
    simpl. repeat split; reflexivity.
  - rewrite (Hcell 7%nat c7) by reflexivity.
    replace (7 <? _) with true
      by (symmetry; apply Z.ltb_lt; simpl length; lia).
    eexists. split; [split; [simpl length; lia|reflexivity]|].
    simpl. repeat split; reflexivity.
Qed.

Lemma parse_rows_positional (txt : PageElement -> string) rows :
  (forall row c, In row rows -> In c (find_all "td" row) ->
                 get_text c = inr (txt c)) ->
  Forall (fun row => 7 <= len (find_all "td" row)) rows ->
  Forall2 (positional txt) rows (parse_rows rows []).
Proof.
  intros Hget Hrows.
  induction Hrows as [|row rows Hrow _ IH].
  - constructor.
  - destruct (make_submission_positional txt row) as (sub & Hwf & Hpos);
      [intros c Hc; apply (Hget row c); [left; reflexivity|assumption]
      |assumption|].
    rewrite (parse_rows_well_formed _ _ _ _ Hwf), parse_rows_acc.
    constructor; [assumption|].
    apply IH. intros row' c Hin. apply Hget. right. assumption.
Qed.

(** C3. A data row with fewer than seven cells, or one whose cells
    raise while they are read, adds nothing to the result and leaves
    the records of the rows before and after it as they are: the
    page parses to what the rows before it and the rows after it
    parse to, and every other row that is well formed has its record
    in the result. *)
Theorem parse_skips_malformed_row html table header before bad after :
  find "table" html = Some table ->
  find_all "tr" table = (header :: before ++ bad :: after)%list ->
  malformed_row bad ->
  parse_submission_page html =
    (parse_rows before [] ++ parse_rows after [])%list /\
  (forall row sub,
      In row (before ++ after) -> well_formed_row row sub ->
      In sub (parse_submission_page html)).
Proof.
  intros Htable Hrows Hbad.
  assert (Hparse : parse_submission_page html =
                   parse_rows (before ++ after) []).
  { unfold parse_submission_page. rewrite Htable, Hrows.
    change (drop 1 (header :: before ++ bad :: after))
      with (before ++ bad :: after)%list.
    rewrite (parse_rows_app before (bad :: after)).
    rewrite (parse_rows_malformed _ _ _ Hbad).
    symmetry. apply parse_rows_app. }
  split.
  - rewrite Hparse. apply parse_rows_app.
  - intros row sub Hin Hrow. rewrite Hparse.
    apply (parse_rows_keeps row); assumption.
Qed.

(** [find] and [find_string] give the first match in document order. *)
Lemma find_first (f : PageElement -> bool) l before a after :
  l = (before ++ a :: after)%list ->
  Forall (fun x => f x = false) before ->
  f a = true ->
  List.find f l = Some a.
Proof.
  intros -> Hbefore Ha.
  induction Hbefore as [|x before Hx _ IH]; simpl.
  - rewrite Ha. reflexivity.
  - rewrite Hx. assumption.
Qed.

Lemma find_first_inv (f : PageElement -> bool) l a :
  List.find f l = Some a ->
  exists before after,
    l = (before ++ a :: after)%list /\
    Forall (fun x => f x = false) before /\ f a = true.
Proof.
  induction l as [|x l IH]; simpl; [discriminate|].
  destruct (f x) eqn:Hx.
  - intros [= ->]. exists [], l. repeat split; [constructor|assumption].
  - intros Hfind. destruct (IH Hfind) as (before & after & -> & Hb & Ha).
    exists (x :: before), after. repeat split; [constructor|]; assumption.
Qed.

Lemma has_next_page_first html a :
  first_next_anchor html a -> has_next_page html = negb (disabled a).
Proof.
  intros (before & after & Hdesc & Hbefore & Ha).
  unfold has_next_page, find_string.
  rewrite (find_first (is_tag_with_string "a" "Next") _ _ _ _
             Hdesc Hbefore Ha).
  reflexivity.
Qed.

Lemma has_next_page_none html :
  Forall (fun x => is_next_anchor x = false) (descendants html) ->
  has_next_page html = false.
Proof.
  intros Hnone. unfold has_next_page, find_string.
  destruct (List.find _ _) as [a|] eqn:Hfind; [|reflexivity].
  apply find_some in Hfind as [Hin Ha].
  rewrite List.Forall_forall in Hnone. apply Hnone in Hin.
  unfold is_next_anchor in Hin. congruence.
Qed.

(** C4, as the code has it.  [has_next_page] is true exactly when the
    page has an anchor whose text is exactly "Next" and the first
    such anchor in document order does not carry the class
    "disabled". *)
Theorem has_next_page_iff_first_enabled html :
  has_next_page html = true <->
  exists a, first_next_anchor html a /\ disabled a = false.
Proof.
  split.
  - unfold has_next_page, find_string.
    destruct (List.find _ _) as [a|] eqn:Hfind; [|discriminate].
    intros Hen. exists a. split.
    + apply find_first_inv in Hfind. exact Hfind.
    + apply negb_true_iff. exact Hen.
  - intros (a & Hfirst & Hen).
    rewrite (has_next_page_first _ _ Hfirst), Hen. reflexivity.
Qed.

(** C10. Only the first anchor in document order whose text is
    exactly "Next" decides [has_next_page]: the answer is whether
    that anchor lacks the class "disabled".  On a page whose first
    "Next" anchor is disabled and whose second is not, the answer is
    false.  An anchor whose text is not exactly "Next" is never the
    anchor found, and a page that has only such anchors has no next
    page. *)
Theorem has_next_page_first_anchor_decides :
  (forall html a,
      first_next_anchor html a -> has_next_page html = negb (disabled a)) /\
  (exists html first later before between after,
      descendants html = (before ++ first :: between ++ later :: after)%list /\
      first_next_anchor html first /\ disabled first = true /\
      is_next_anchor later = true /\ disabled later = false /\
      has_next_page html = false) /\
  (forall html a,
      string_of a <> Some "Next" -> find_string "a" "Next" html <> Some a) /\
  (forall html,
      (forall a, In a (descendants html) -> is_tag "a" a = true ->
                 string_of a <> Some "Next") ->
      has_next_page html = false).
Proof.
  split; [exact has_next_page_first|split; [|split]].
  - exists Sample.page_two_next,
      (Sample.anchor (Some ["page-link"; "disabled"]) "Next"),
      (Sample.anchor (Some ["page-link"]) "Next").
    exists (firstn 35 (descendants Sample.page_two_next)),
      [NavigableString "Next"], [NavigableString "Next"].
    split; [vm_compute; reflexivity|split].
    + exists (firstn 35 (descendants Sample.page_two_next)),
        (skipn 36 (descendants Sample.page_two_next)).
      split; [vm_compute; reflexivity|].
      split; [|reflexivity].
      apply (bool_decide_unpack _). vm_compute. reflexivity.
    + repeat split; reflexivity.
  - intros html a Hstr Hfind. apply find_some in Hfind as [_ Ha].
    unfold is_tag_with_string in Ha. apply andb_true_iff in Ha as [_ Ha].
    destruct (string_of a) as [t|]; [|discriminate].
    apply String.eqb_eq in Ha. congruence.
  - intros html Hnone. apply has_next_page_none.
    apply List.Forall_forall. intros a Hin.
    unfold is_next_anchor, is_tag_with_string.
    destruct (is_tag "a" a) eqn:Htag; [|reflexivity].
    specialize (Hnone a Hin Htag).
    destruct (string_of a) as [t|]; [|reflexivity].
    simpl. apply String.eqb_neq. congruence.
Qed.

(** *** SubmissionCollector *)

Lemma fetch_loop_step uid_or_name pid max_pages page submissions io :
  fetch_loop uid_or_name pid max_pages page submissions io =
    if Z_le_dec page max_pages
    then match loop_body uid_or_name pid page submissions io with
         | Break out => out
         | Again (page', submissions', io') =>
             fetch_loop uid_or_name pid max_pages page' submissions' io'
         end
    else (submissions, io).
Proof.
  funelim (fetch_loop uid_or_name pid max_pages page submissions io).
  all: match goal with Hdec : Z_le_dec _ _ = _ |- _ => rewrite Hdec end.
  1: reflexivity.
  all: match goal with Hb : loop_body _ _ _ _ _ = _ |- _ => rewrite Hb end.
  all: reflexivity.
Qed.

Lemma get_record_trace uid_or_name pid page io r io1 :
  get_record uid_or_name pid page io = (r, io1) ->
  trace io1 =
    (trace io ++ [GET (String.append base_url "/record")
                    (mkParams uid_or_name pid "" "" "" page)])%list.
Proof.
  unfold get_record. destruct (session_get _ _ _) as [r0 w].
  intros [= _ <-]. reflexivity.
Qed.

Lemma get_record_pages uid_or_name pid page io r io1 :
  get_record uid_or_name pid page io = (r, io1) ->
  fetched_pages (trace io1) = (fetched_pages (trace io) ++ [page])%list.
Proof.
  intros Hget. rewrite (get_record_trace _ _ _ _ _ _ Hget).
  unfold fetched_pages. rewrite omap_app. reflexivity.
Qed.

Lemma loop_body_failure uid_or_name pid page submissions io e io1 :
  get_record uid_or_name pid page io = (inl e, io1) ->
  loop_body uid_or_name pid page submissions io = Break (submissions, io1).
Proof. intros Hget. unfold loop_body. rewrite Hget. reflexivity. Qed.

Lemma loop_body_empty uid_or_name pid page submissions io response io1 :
  get_record uid_or_name pid page io = (inr response, io1) ->
  parse_submission_page (text response) = [] ->
  loop_body uid_or_name pid page submissions io = Break (submissions, io1).
Proof.
  intros Hget Hparse. unfold loop_body. rewrite Hget, Hparse. reflexivity.
Qed.

Lemma loop_body_next uid_or_name pid page submissions io response io1 :
  get_record uid_or_name pid page io = (inr response, io1) ->
  parse_submission_page (text response) <> [] ->
  has_next_page (text response) = true ->
  loop_body uid_or_name pid page submissions io =
    Again (page + 1,
           (submissions ++ parse_submission_page (text response))%list,
           emit (Sleep 1) io1).
Proof.
  intros Hget Hparse Hnext. unfold loop_body. rewrite Hget, Hnext.
  destruct (parse_submission_page (text response));
    [contradiction|reflexivity].
Qed.

(** What one pass through the body does to the trace: one GET, of
    [page], and the next pass is for [page + 1]. *)
Lemma loop_body_pages uid_or_name pid page submissions io :
  match loop_body uid_or_name pid page submissions io with
  | Again (page', _, io') =>
      page' = page + 1 /\
      fetched_pages (trace io') = (fetched_pages (trace io) ++ [page])%list
  | Break (_, io') =>
      fetched_pages (trace io') = (fetched_pages (trace io) ++ [page])%list
  end.
Proof.
  unfold loop_body.
  destruct (get_record uid_or_name pid page io) as [[e|response] io1] eqn:Hget;
    [exact (get_record_pages _ _ _ _ _ _ Hget)|].
  destruct (parse_submission_page (text response));
    [exact (get_record_pages _ _ _ _ _ _ Hget)|].
  destruct (negb (has_next_page (text response)));
    [exact (get_record_pages _ _ _ _ _ _ Hget)|].
  split; [reflexivity|].
  unfold emit, fetched_pages. simpl. rewrite omap_app. simpl.
  rewrite app_nil_r. exact (get_record_pages _ _ _ _ _ _ Hget).
Qed.

Lemma fetch_loop_pages uid_or_name pid max_pages (n : nat) :
  forall page submissions io,
    Z.to_nat (max_pages + 1 - page) = n ->
    exists k : nat,
      (k <= n)%nat /\
      fetched_pages (trace (fetch_loop uid_or_name pid max_pages page
                              submissions io).2) =
        (fetched_pages (trace io) ++
         map (fun j => page + Z.of_nat j) (seq 0 k))%list.
Proof.
  induction n as [|n IH]; intros page submissions io Hn;
    rewrite fetch_loop_step; destruct (Z_le_dec page max_pages) as [Hle|Hgt];
    try lia.
  - exists 0%nat. simpl. rewrite app_nil_r. split; [lia|reflexivity].
  - pose proof (loop_body_pages uid_or_name pid page submissions io) as Hbody.
    destruct (loop_body uid_or_name pid page submissions io)
      as [[[page' submissions'] io']|[out io']].
    + destruct Hbody as [-> Hpages].
      destruct (IH (page + 1) submissions' io') as (k & Hk & Hrest); [lia|].
      exists (S k). split; [lia|].
      rewrite Hrest, Hpages, <- app_assoc. f_equal.
      simpl. rewrite Z.add_0_r. f_equal.
      rewrite <- seq_shift, map_map. apply map_ext. intros j. lia.
    + exists 1%nat. split; [lia|].
      simpl. rewrite Z.add_0_r. exact Hbody.
Qed.

(** C5. [fetch_submissions] is a total function: the loop ends for
    every user, problem, page cap and judge.  The pages it asks for
    are 1, 2, ..., k in this order, with k at most [max_pages] (none
    when [max_pages] is below 1), whatever the judge answers. *)
Theorem fetch_submissions_page_cap uid_or_name pid max_pages io :
  exists k : nat,
    (k <= Z.to_nat max_pages)%nat /\
    fetched_pages (trace (fetch_submissions uid_or_name pid max_pages io).2) =
      (fetched_pages (trace io) ++ range 1 (1 + Z.of_nat k))%list.
Proof.
  destruct (fetch_loop_pages uid_or_name pid max_pages
              (Z.to_nat max_pages) 1 [] io) as (k & Hk & Hpages);
    [f_equal; lia|].
  exists k. split; [assumption|].
  unfold fetch_submissions. rewrite Hpages. unfold range.
  replace (Z.to_nat (1 + Z.of_nat k - 1)) with k by lia. reflexivity.
Qed.

(** With a judge that always answers with records and an enabled
    "Next", the loop stops at the page cap and nowhere else. *)
Lemma fetch_loop_endless uid_or_name pid max_pages (n : nat) :
  (forall page io, exists response io1,
      get_record uid_or_name pid page io = (inr response, io1) /\
      parse_submission_page (text response) <> [] /\
      has_next_page (text response) = true) ->
  forall page submissions io,
    Z.to_nat (max_pages + 1 - page) = n ->
    fetched_pages (trace (fetch_loop uid_or_name pid max_pages page
                            submissions io).2) =
      (fetched_pages (trace io) ++
       map (fun j => page + Z.of_nat j) (seq 0 n))%list.
Proof.
  intros Hjudge.
  induction n as [|n IH]; intros page submissions io Hn;
    rewrite fetch_loop_step; destruct (Z_le_dec page max_pages) as [Hle|Hgt];
    try lia.
  - simpl. rewrite app_nil_r. reflexivity.
  - destruct (Hjudge page io) as (response & io1 & Hget & Hparse & Hnext).
    rewrite (loop_body_next _ _ _ _ _ _ _ Hget Hparse Hnext).
    rewrite IH by lia.
    unfold emit, fetched_pages at 1. simpl. rewrite omap_app. simpl.
    rewrite app_nil_r. fold (fetched_pages (trace io1)).
    rewrite (get_record_pages _ _ _ _ _ _ Hget), <- app_assoc. f_equal.
    simpl. rewrite Z.add_0_r. f_equal.
    rewrite <- seq_shift, map_map. apply map_ext. intros j. lia.
Qed.

Lemma transport_failure_get_record uid_or_name pid page io :
  transport_failure uid_or_name pid page io ->
  exists e io1, get_record uid_or_name pid page io = (inl e, io1).
Proof.
  unfold transport_failure, get_record.
  destruct (session_get _ _ _) as [[e|r] w]; intros Hfail.
  - eexists _, _. reflexivity.
  - unfold bind, raise_for_status.
    destruct (Z.leb_spec 400 (status_code r)); [|lia].
    destruct (Z.ltb_spec (status_code r) 600); [|lia].
    eexists _, _. reflexivity.
Qed.

(** A run that stands at the head of the loop ends as the loop does
    from there. *)
Lemma collecting_fetch_loop uid_or_name pid max_pages io0 page submissions io :
  collecting uid_or_name pid max_pages io0 page submissions io ->
  fetch_submissions uid_or_name pid max_pages io0 =
    fetch_loop uid_or_name pid max_pages page submissions io.
Proof.
  induction 1 as [|page submissions io response io1 _ IH Hle Hget Hparse Hnext].
  - reflexivity.
  - rewrite IH, fetch_loop_step.
    destruct (Z_le_dec page max_pages) as [_|Hgt]; [|contradiction].
    rewrite (loop_body_next _ _ _ _ _ _ _ Hget Hparse Hnext). reflexivity.
Qed.

Lemma loop_body_again_inv uid_or_name pid page submissions io next :
  loop_body uid_or_name pid page submissions io = Again next ->
  exists response io1,
    get_record uid_or_name pid page io = (inr response, io1) /\
    parse_submission_page (text response) <> [] /\
    has_next_page (text response) = true /\
    next = (page + 1,
            (submissions ++ parse_submission_page (text response))%list,
            emit (Sleep 1) io1).
Proof.
  unfold loop_body.
  destruct (get_record uid_or_name pid page io) as [[e|response] io1];
    [discriminate|].
  destruct (parse_submission_page (text response)) as [|sub rest] eqn:Hparse;
    [discriminate|].
  destruct (has_next_page (text response)) eqn:Hnext; [|discriminate].
  intros [= <-]. exists response, io1.
  split; [reflexivity|]. split; [rewrite Hparse; discriminate|].
  split; [exact Hnext|]. rewrite Hparse. reflexivity.
Qed.

(** Every run is of this kind: it ends at a loop head that
    [collecting] describes, by the page cap or by a [break]. *)
Lemma fetch_submissions_run uid_or_name pid max_pages io0 :
  exists page submissions io,
    collecting uid_or_name pid max_pages io0 page submissions io /\
    ((max_pages < page /\
      fetch_submissions uid_or_name pid max_pages io0 = (submissions, io)) \/
     (page <= max_pages /\
      loop_body uid_or_name pid page submissions io =
        Break (fetch_submissions uid_or_name pid max_pages io0))).
Proof.
  assert (Hgen : forall (n : nat) page submissions io,
    Z.to_nat (max_pages + 1 - page) = n ->
    collecting uid_or_name pid max_pages io0 page submissions io ->
    exists page' submissions' io',
      collecting uid_or_name pid max_pages io0 page' submissions' io' /\
      ((max_pages < page' /\
        fetch_submissions uid_or_name pid max_pages io0 = (submissions', io')) \/
       (page' <= max_pages /\
        loop_body uid_or_name pid page' submissions' io' =
          Break (fetch_submissions uid_or_name pid max_pages io0)))).
  { induction n as [|n IH]; intros page submissions io Hn Hrun;
      pose proof (collecting_fetch_loop _ _ _ _ _ _ _ Hrun) as Hloop;
      rewrite fetch_loop_step in Hloop;
      destruct (Z_le_dec page max_pages) as [Hle|Hgt]; try lia.
    - exists page, submissions, io. split; [exact Hrun|]. left.
      split; [lia|exact Hloop].
    - destruct (loop_body uid_or_name pid page submissions io)
        as [next|out] eqn:Hbody.
      + destruct (loop_body_again_inv _ _ _ _ _ _ Hbody)
          as (response & io1 & Hget & Hparse & Hnext & ->).
        apply (IH (page + 1)
                 (submissions ++ parse_submission_page (text response))%list
                 (emit (Sleep 1) io1)); [lia|].
        econstructor; eassumption.
      + exists page, submissions, io. split; [exact Hrun|]. right.
        split; [exact Hle|]. rewrite Hbody, Hloop. reflexivity. }
  apply (Hgen (Z.to_nat max_pages) 1 [] io0); [f_equal; lia|constructor].
Qed.

Lemma collecting_transport_failure
    uid_or_name pid max_pages io0 page submissions io :
  collecting uid_or_name pid max_pages io0 page submissions io ->
  page <= max_pages ->
  transport_failure uid_or_name pid page io ->
  exists io',
    fetch_submissions uid_or_name pid max_pages io0 = (submissions, io') /\
    trace io' =
      (trace io ++ [GET (String.append base_url "/record")
                      (mkParams uid_or_name pid "" "" "" page)])%list.
Proof.
  intros Hrun Hle Hfail.
  destruct (transport_failure_get_record _ _ _ _ Hfail) as (e & io1 & Hget).
  exists io1. split; [|exact (get_record_trace _ _ _ _ _ _ Hget)].
  rewrite (collecting_fetch_loop _ _ _ _ _ _ _ Hrun), fetch_loop_step.
  destruct (Z_le_dec page max_pages) as [_|Hgt]; [|contradiction].
  rewrite (loop_body_failure _ _ _ _ _ _ _ Hget). reflexivity.
Qed.

(** C6. When the GET of some page fails (the session raises, or the
    status is an error status), the collection returns, as a value,
    exactly the records of the pages read before; the failed GET is
    the last event of the run. *)
Theorem fetch_submissions_transport_failure
    uid_or_name pid max_pages io0 page submissions io :
  collecting uid_or_name pid max_pages io0 page submissions io ->
  page <= max_pages ->
  transport_failure uid_or_name pid page io ->
  exists io',
    fetch_submissions uid_or_name pid max_pages io0 = (submissions, io') /\
    trace io' =
      (trace io ++ [GET (String.append base_url "/record")
                      (mkParams uid_or_name pid "" "" "" page)])%list.
Proof. exact (collecting_transport_failure uid_or_name pid max_pages io0 page submissions io). Qed.

Lemma parse_submission_page_no_table html :
  find "table" html = None -> parse_submission_page html = [].
Proof. intros Hnone. unfold parse_submission_page. rewrite Hnone. reflexivity. Qed.

(** C7. A page that parses to no record ends the collection at once,
    with the records gathered so far and no event after the GET of
    that page; a page without a table parses to no record; and when
    the first page has no table the collection ends after that one
    GET with no record. *)
Theorem fetch_submissions_empty_page uid_or_name pid max_pages io0 :
  (forall page submissions io response io1,
      collecting uid_or_name pid max_pages io0 page submissions io ->
      page <= max_pages ->
      get_record uid_or_name pid page io = (inr response, io1) ->
      parse_submission_page (text response) = [] ->
      fetch_submissions uid_or_name pid max_pages io0 = (submissions, io1)) /\
  (forall html, find "table" html = None -> parse_submission_page html = []) /\
  (forall response io1,
      1 <= max_pages ->
      get_record uid_or_name pid 1 io0 = (inr response, io1) ->
      find "table" (text response) = None ->
      fetch_submissions uid_or_name pid max_pages io0 = ([], io1) /\
      fetched_pages (trace io1) = (fetched_pages (trace io0) ++ [1])%list).
Proof.
  assert (Hstop : forall page submissions io response io1,
      collecting uid_or_name pid max_pages io0 page submissions io ->
      page <= max_pages ->
      get_record uid_or_name pid page io = (inr response, io1) ->
      parse_submission_page (text response) = [] ->
      fetch_submissions uid_or_name pid max_pages io0 = (submissions, io1)).
  { intros page submissions io response io1 Hrun Hle Hget Hparse.
    rewrite (collecting_fetch_loop _ _ _ _ _ _ _ Hrun), fetch_loop_step.
    destruct (Z_le_dec page max_pages) as [_|Hgt]; [|contradiction].
    rewrite (loop_body_empty _ _ _ _ _ _ _ Hget Hparse). reflexivity. }
  split; [exact Hstop|split; [exact parse_submission_page_no_table|]].
  intros response io1 Hcap Hget Hnone. split.
  - apply (Hstop 1 [] io0 response io1);
      [constructor|assumption|assumption|].
    apply parse_submission_page_no_table. assumption.
  - exact (get_record_pages _ _ _ _ _ _ Hget).
Qed.

(** *** Usernames *)

Lemma append_assoc (s1 s2 s3 : string) :
  String.append (String.append s1 s2) s3 =
    String.append s1 (String.append s2 s3).
Proof.
  induction s1 as [|c s1 IH]; [reflexivity|].
  change (String c (String.append (String.append s1 s2) s3) =
          String c (String.append s1 (String.append s2 s3))).
  rewrite IH. reflexivity.
Qed.

Lemma append_cancel_l (s s1 s2 : string) :
  String.append s s1 = String.append s s2 -> s1 = s2.
Proof.
  induction s as [|c s IH]; [tauto|].
  change (String c (String.append s s1) = String c (String.append s s2)
          -> s1 = s2).
  intros [= Heq]. exact (IH Heq).
Qed.

Lemma str_pos (p : positive) :
  str (Z.pos p) = NilEmpty.string_of_uint (Pos.to_uint p).
Proof.
  unfold str. simpl. pose proof (DecimalPos.Unsigned.to_uint_nonnil p) as Hnil.
  destruct (Pos.to_uint p); [contradiction|reflexivity..].
Qed.

Lemma str_inj (i j : Z) : 0 < i -> 0 < j -> str i = str j -> i = j.
Proof.
  destruct i as [|p|p], j as [|q|q]; try lia. intros _ _.
  rewrite !str_pos. intros Heq.
  apply (f_equal NilEmpty.uint_of_string) in Heq.
  rewrite !NilEmpty.usu in Heq. injection Heq as Heq.
  apply DecimalPos.Unsigned.to_uint_inj in Heq. congruence.
Qed.

Lemma str_no_leading_zero (i : Z) :
  0 < i -> exists c s, str i = String c s /\ c <> "0"%char.
Proof.
  destruct i as [|p|p]; try lia. intros _. rewrite str_pos.
  assert (Hnorm : Decimal.unorm (Pos.to_uint p) = Pos.to_uint p).
  { rewrite <- DecimalPos.Unsigned.to_of, DecimalPos.Unsigned.of_to. reflexivity. }
  pose proof (DecimalPos.Unsigned.to_uint_nonnil p) as Hnil.
  pose proof (DecimalPos.Unsigned.to_uint_nonzero p) as Hzero.
  destruct (Pos.to_uint p) as [|d|d|d|d|d|d|d|d|d|d] eqn:Hp;
    [contradiction| |simpl; eexists _, _; split; [reflexivity|discriminate]..].
  exfalso. unfold Decimal.unorm in Hnorm. simpl in Hnorm.
  destruct (Decimal.nzhead d) eqn:Hd; try discriminate.
  - injection Hnorm as <-. apply Hzero. reflexivity.
  - apply (nzhead_nonzero d d). congruence.
Qed.

Lemma str_digit (i : Z) :
  1 <= i <= 9 -> str i = String (ascii_of_nat (48 + Z.to_nat i)) EmptyString.
Proof.
  intros Hi.
  assert (Hcases : i = 1 \/ i = 2 \/ i = 3 \/ i = 4 \/ i = 5 \/
                   i = 6 \/ i = 7 \/ i = 8 \/ i = 9) by lia.
  repeat (destruct Hcases as [->|Hcases]; [reflexivity|]).
  subst i. reflexivity.
Qed.

Lemma str_value (i : Z) :
  0 < i -> option_map Z.of_int (NilZero.int_of_string (str i)) = Some i.
Proof.
  intros Hi. unfold str. rewrite NilZero.isi.
  - simpl. rewrite DecimalZ.of_to. reflexivity.
  - destruct i as [|p|p]; try lia. simpl. intros [= Hp].
    exact (DecimalPos.Unsigned.to_uint_nonnil p Hp).
  - destruct i as [|p|p]; try lia. discriminate.
Qed.

Lemma in_range (a b i : Z) : In i (range a b) <-> a <= i < b.
Proof.
  unfold range. rewrite in_map_iff. split.
  - intros (k & <- & Hk). apply in_seq in Hk. lia.
  - intros Hi. exists (Z.to_nat (i - a)). split; [lia|].
    apply in_seq. lia.
Qed.

Lemma username_of_inj usernameFormat (i j : Z) :
  1 <= i -> 1 <= j ->
  username_of usernameFormat i = username_of usernameFormat j -> i = j.
Proof.
  intros Hi Hj. unfold username_of.
  destruct (Z.ltb_spec 9 i) as [Hi9|Hi9], (Z.ltb_spec 9 j) as [Hj9|Hj9];
    rewrite ?append_assoc; intros Heq; apply append_cancel_l in Heq.
  - apply str_inj; [lia..|assumption].
  - destruct (str_no_leading_zero i) as (c & s & Hs & Hc); [lia|].
    change (str i = String "0" (str j)) in Heq. congruence.
  - destruct (str_no_leading_zero j) as (c & s & Hs & Hc); [lia|].
    change (String "0" (str i) = str j) in Heq. congruence.
  - apply append_cancel_l in Heq. apply str_inj; [lia..|assumption].
Qed.

(** C8. The loop of [main] takes the indices 1 to [counts].  For an
    index up to 9 the username is the prefix, then "0", then the
    digit of the index; for an index above 9 it is the prefix and
    then the decimal digits of the index, which do not begin with a
    zero.  With twelve members the usernames are prefix01 to
    prefix09 and then prefix10 to prefix12. *)
Theorem username_of_padding usernameFormat :
  (forall counts i, In i (range 1 (counts + 1)) <-> 1 <= i <= counts) /\
  (forall i, 1 <= i <= 9 ->
     username_of usernameFormat i =
       String.append usernameFormat
         (String "0" (String (ascii_of_nat (48 + Z.to_nat i)) EmptyString))) /\
  (forall i, 9 < i ->
     username_of usernameFormat i = String.append usernameFormat (str i) /\
     option_map Z.of_int (NilZero.int_of_string (str i)) = Some i /\
     exists c s, str i = String c s /\ c <> "0"%char) /\
  map (username_of usernameFormat) (range 1 (12 + 1)) =
    map (String.append usernameFormat)
      ["01"; "02"; "03"; "04"; "05"; "06"; "07"; "08"; "09"; "10"; "11"; "12"].
Proof.
  split; [|split; [|split]].
  - intros counts i. rewrite in_range. lia.
  - intros i Hi. unfold username_of.
    destruct (Z.ltb_spec 9 i); [lia|].
    rewrite append_assoc, str_digit by assumption. reflexivity.
  - intros i Hi. unfold username_of.
    destruct (Z.ltb_spec 9 i); [|lia].
    split; [reflexivity|]. split; [apply str_value; lia|].
    apply str_no_leading_zero. lia.
  - unfold range, username_of. simpl. rewrite !append_assoc. reflexivity.
Qed.

(** *** BatchRunner *)

Lemma checker_loop_outcome i submissions io :
  (checker_loop i submissions io).1 = evaluate_spec submissions.
Proof.
  revert i io. unfold evaluate_spec.
  induction submissions as [|sub rest IH]; intros i io; simpl;
    [reflexivity|].
  destruct (String.eqb (time sub) sentinel); [reflexivity|apply IH].
Qed.

Lemma evaluate_spec_bit submissions :
  evaluate_spec submissions = 0 \/ evaluate_spec submissions = 1.
Proof. unfold evaluate_spec. destruct (existsb _ _); auto. Qed.


Lemma row_outcomes_Forall2 username pids io outcomes io' :
  row_outcomes username pids io outcomes io' ->
  Forall2 (fun pid x => x = 0 \/ x = 1) pids outcomes.
Proof.
  induction 1; constructor; [apply evaluate_spec_bit|assumption].
Qed.

Lemma checker_appends username pid st outcomes :
  result st !! username = Some outcomes ->
  open_w (output_file username pid) = None ->
  exists submissions io1,
    fetch_submissions username pid 5 (io st) = (submissions, io1) /\
    checker username pid st =
      inr (mkState
             (<[username := (outcomes ++ [evaluate_spec submissions])%list]>
                (result st))
             (<[output_file username pid := JsonFile submissions]> (files st))
             (checker_loop 1 submissions
                (emit (Print (total_line submissions)) io1)).2).
Proof.
  intros Hkey Hopen. unfold checker.
  destruct (fetch_submissions username pid 5 (io st)) as [submissions io1].
  exists submissions, io1. split; [reflexivity|].
  fold (total_line submissions).
  pose proof (checker_loop_outcome 1 submissions
                (emit (Print (total_line submissions)) io1)) as Hout.
  destruct (checker_loop 1 submissions _) as [outcome io3].
  simpl in Hout. subst outcome.
  unfold result_append, save_to_file. rewrite Hkey, Hopen. reflexivity.
Qed.

Lemma for_pids_appends username pids :
  forall st outcomes,
    result st !! username = Some outcomes ->
    (forall pid, In pid pids -> open_w (output_file username pid) = None) ->
    exists st' new,
      for_pids username pids st = inr st' /\
      result st' = <[username := (outcomes ++ new)%list]> (result st) /\
      row_outcomes username pids (io st) new (io st').
Proof.
  induction pids as [|pid pids IH]; intros st outcomes Hkey Hopen; simpl.
  - exists st, []. split; [reflexivity|]. split; [|constructor].
    rewrite app_nil_r. symmetry. apply insert_id. assumption.
  - destruct (checker_appends username pid st outcomes Hkey)
      as (submissions & io1 & Hfetch & Hchecker);
      [apply Hopen; left; reflexivity|].
    rewrite Hchecker. simpl.
    match goal with
    | |- context [for_pids username pids ?st1] =>
        destruct (IH st1 (outcomes ++ [evaluate_spec submissions])%list)
          as (st' & new & Hrun & Hresult & Hrow);
        [simpl; apply lookup_insert_eq
        |intros pid' Hin; apply Hopen; right; exact Hin|]
    end.
    exists st', (evaluate_spec submissions :: new).
    split; [exact Hrun|]. split.
    + rewrite Hresult. simpl. rewrite insert_insert_eq, <- app_assoc.
      reflexivity.
    + econstructor; [exact Hfetch|reflexivity|exact Hrow].
Qed.

Lemma for_members_grid usernameFormat pids indices :
  forall st,
    NoDup (map (username_of usernameFormat) indices) ->
    (forall i pid, In i indices -> In pid pids ->
       open_w (output_file (username_of usernameFormat i) pid) = None) ->
    exists st',
      for_members usernameFormat indices pids st = inr st' /\
      (forall i, In i indices ->
         exists outcomes io_a io_b,
           result st' !! username_of usernameFormat i = Some outcomes /\
           row_outcomes (username_of usernameFormat i) pids
             io_a outcomes io_b) /\
      (forall u, ~ In u (map (username_of usernameFormat) indices) ->
         result st' !! u = result st !! u).
Proof.
  induction indices as [|i indices IH]; intros st Hnodup Hopen; simpl.
  - exists st. split; [reflexivity|]. split; [contradiction|reflexivity].
  - apply NoDup_cons in Hnodup as [Hfresh Hnodup].
    set (username := username_of usernameFormat i) in *.
    set (st1 := mkState (<[username := []]> (result st)) (files st) (io st)).
    destruct (for_pids_appends username pids st1 [])
      as (st2 & new & Hrun & Hresult & Hrow);
      [simpl; apply lookup_insert_eq
      |intros pid Hin; apply Hopen; [left; reflexivity|exact Hin]|].
    rewrite Hrun. simpl.
    destruct (IH st2 Hnodup) as (st' & Hmembers & Hgrid & Hother);
      [intros j pid Hj Hin; apply Hopen; [right; exact Hj|exact Hin]|].
    exists st'. split; [exact Hmembers|]. split.
    + intros j [<-|Hj]; [|apply Hgrid; assumption].
      exists new, (io st1), (io st2). split; [|exact Hrow].
      rewrite Hother by (rewrite <- list_elem_of_In; exact Hfresh).
      rewrite Hresult. apply lookup_insert_eq.
    + intros u Hu. rewrite Hother by tauto.
      rewrite Hresult. simpl. rewrite insert_insert_eq.
      apply lookup_insert_ne. intros ->. tauto.
Qed.

Lemma NoDup_usernames usernameFormat counts :
  NoDup (map (username_of usernameFormat) (range 1 (counts + 1))).
Proof.
  unfold range. rewrite map_map.
  apply NoDup_fmap_2_strong; [|apply NoDup_seq].
  intros j k _ _ Heq. apply username_of_inj in Heq; lia.
Qed.



(** *** More on the collector *)

Lemma loop_body_last uid_or_name pid page submissions io response io1 :
  get_record uid_or_name pid page io = (inr response, io1) ->
  parse_submission_page (text response) <> [] ->
  has_next_page (text response) = false ->
  loop_body uid_or_name pid page submissions io =
    Break ((submissions ++ parse_submission_page (text response))%list, io1).
Proof.
  intros Hget Hparse Hnext. unfold loop_body. rewrite Hget, Hnext.
  destruct (parse_submission_page (text response));
    [contradiction|reflexivity].
Qed.

Lemma loop_body_break_inv uid_or_name pid page submissions io out io' :
  loop_body uid_or_name pid page submissions io = Break (out, io') ->
  trace io' = (trace io ++ [GET_record uid_or_name pid page])%list /\
  exists rest, out = (submissions ++ rest)%list.
Proof.
  unfold loop_body.
  destruct (get_record uid_or_name pid page io) as [[e|response] io1] eqn:Hget.
  - intros [= <- <-]. split; [exact (get_record_trace _ _ _ _ _ _ Hget)|].
    exists []. rewrite app_nil_r. reflexivity.
  - destruct (parse_submission_page (text response)) as [|sub rest].
    + intros [= <- <-]. split; [exact (get_record_trace _ _ _ _ _ _ Hget)|].
      exists []. rewrite app_nil_r. reflexivity.
    + destruct (negb (has_next_page (text response))); [|discriminate].
      intros [= <- <-]. split; [exact (get_record_trace _ _ _ _ _ _ Hget)|].
      exists (sub :: rest). reflexivity.
Qed.

Lemma fetch_loop_trace uid_or_name pid max_pages (n : nat) :
  forall page submissions io,
    Z.to_nat (max_pages + 1 - page) = n ->
    exists k : nat,
      (trace (fetch_loop uid_or_name pid max_pages page submissions io).2 =
         (trace io ++ full_pages uid_or_name pid page k)%list /\ k = n) \/
      (trace (fetch_loop uid_or_name pid max_pages page submissions io).2 =
         (trace io ++ full_pages uid_or_name pid page k ++
          [GET_record uid_or_name pid (page + Z.of_nat k)])%list /\
       (k < n)%nat).
Proof.
  induction n as [|n IH]; intros page submissions io Hn;
    rewrite fetch_loop_step; destruct (Z_le_dec page max_pages) as [Hle|Hgt];
    try lia.
  - exists 0%nat. left. simpl. rewrite app_nil_r. split; reflexivity.
  - destruct (loop_body uid_or_name pid page submissions io)
      as [next|[out io']] eqn:Hbody.
    + destruct (loop_body_again_inv _ _ _ _ _ _ Hbody)
        as (response & io1 & Hget & _ & _ & ->).
      destruct (IH (page + 1)
                  (submissions ++ parse_submission_page (text response))%list
                  (emit (Sleep 1) io1)) as (k & Hk); [lia|].
      exists (S k). simpl trace in Hk.
      rewrite (get_record_trace _ _ _ _ _ _ Hget) in Hk.
      fold (GET_record uid_or_name pid page) in Hk.
      destruct Hk as [[Htrace ->]|[Htrace Hlt]]; [left|right].
      * split; [|reflexivity]. rewrite Htrace. simpl.
        rewrite <- !app_assoc. reflexivity.
      * split; [|lia].
        replace (page + Z.of_nat (S k)) with (page + 1 + Z.of_nat k) by lia.
        rewrite Htrace. cbn [full_pages app].
        rewrite <- !app_assoc. reflexivity.
    + exists 0%nat. right. split; [|lia].
      destruct (loop_body_break_inv _ _ _ _ _ _ _ Hbody) as [Htrace _].
      simpl. rewrite Z.add_0_r. exact Htrace.
Qed.

(** X1. The events of a collection are GET 1, Sleep 1, GET 2, Sleep 1,
    and so on, each GET to the record URL with the job's user and
    problem and empty filters.  The run is either [max_pages] such
    pairs, so that a pause follows the last GET as well, or fewer pairs
    and then one last GET. *)
Theorem fetch_submissions_trace uid_or_name pid max_pages io :
  exists k : nat,
    (trace (fetch_submissions uid_or_name pid max_pages io).2 =
       (trace io ++ full_pages uid_or_name pid 1 k)%list /\
     k = Z.to_nat max_pages) \/
    (trace (fetch_submissions uid_or_name pid max_pages io).2 =
       (trace io ++ full_pages uid_or_name pid 1 k ++
        [GET_record uid_or_name pid (1 + Z.of_nat k)])%list /\
     (k < Z.to_nat max_pages)%nat).
Proof.
  apply (fetch_loop_trace uid_or_name pid max_pages (Z.to_nat max_pages) 1 [] io).
  f_equal. lia.
Qed.

Lemma fetch_loop_extends uid_or_name pid max_pages (n : nat) :
  forall page submissions io,
    Z.to_nat (max_pages + 1 - page) = n ->
    exists rest,
      (fetch_loop uid_or_name pid max_pages page submissions io).1 =
        (submissions ++ rest)%list.
Proof.
  induction n as [|n IH]; intros page submissions io Hn;
    rewrite fetch_loop_step; destruct (Z_le_dec page max_pages) as [Hle|Hgt];
    try lia.
  - exists []. rewrite app_nil_r. reflexivity.
  - destruct (loop_body uid_or_name pid page submissions io)
      as [next|[out io']] eqn:Hbody.
    + destruct (loop_body_again_inv _ _ _ _ _ _ Hbody)
        as (response & io1 & _ & _ & _ & ->).
      destruct (IH (page + 1)
                  (submissions ++ parse_submission_page (text response))%list
                  (emit (Sleep 1) io1)) as (rest & Hrest); [lia|].
      exists (parse_submission_page (text response) ++ rest)%list.
      rewrite Hrest, app_assoc. reflexivity.
    + destruct (loop_body_break_inv _ _ _ _ _ _ _ Hbody) as [_ Hout].
      exact Hout.
Qed.

(** X2. What a run has gathered when it stands at the head of the
    loop stays in the result, at the front and in the same order:
    later pages only add records after it. *)
Theorem fetch_submissions_extends
    uid_or_name pid max_pages io0 page submissions io :
  collecting uid_or_name pid max_pages io0 page submissions io ->
  exists rest,
    (fetch_submissions uid_or_name pid max_pages io0).1 =
      (submissions ++ rest)%list.
Proof.
  intros Hrun. rewrite (collecting_fetch_loop _ _ _ _ _ _ _ Hrun).
  apply (fetch_loop_extends uid_or_name pid max_pages
           (Z.to_nat (max_pages + 1 - page))).
  reflexivity.
Qed.

(** X3. A page that has records and no enabled "Next" is the last one:
    the collection returns what it had and the records of that page,
    and the GET of that page is its last event, with no pause after
    it. *)
Theorem fetch_submissions_last_page
    uid_or_name pid max_pages io0 page submissions io response io1 :
  collecting uid_or_name pid max_pages io0 page submissions io ->
  page <= max_pages ->
  get_record uid_or_name pid page io = (inr response, io1) ->
  parse_submission_page (text response) <> [] ->
  has_next_page (text response) = false ->
  fetch_submissions uid_or_name pid max_pages io0 =
    ((submissions ++ parse_submission_page (text response))%list, io1) /\
  trace io1 = (trace io ++ [GET_record uid_or_name pid page])%list.
Proof.
  intros Hrun Hle Hget Hparse Hnext.
  split; [|exact (get_record_trace _ _ _ _ _ _ Hget)].
  rewrite (collecting_fetch_loop _ _ _ _ _ _ _ Hrun), fetch_loop_step.
  destruct (Z_le_dec page max_pages) as [_|Hgt]; [|contradiction].
  rewrite (loop_body_last _ _ _ _ _ _ _ Hget Hparse Hnext). reflexivity.
Qed.

Lemma fetch_loop_endless_trace uid_or_name pid max_pages (n : nat) :
  (forall page io, exists response io1,
      get_record uid_or_name pid page io = (inr response, io1) /\
      parse_submission_page (text response) <> [] /\
      has_next_page (text response) = true) ->
  forall page submissions io,
    Z.to_nat (max_pages + 1 - page) = n ->
    trace (fetch_loop uid_or_name pid max_pages page submissions io).2 =
      (trace io ++ full_pages uid_or_name pid page n)%list.
Proof.
  intros Hjudge.
  induction n as [|n IH]; intros page submissions io Hn;
    rewrite fetch_loop_step; destruct (Z_le_dec page max_pages) as [Hle|Hgt];
    try lia.
  - simpl. rewrite app_nil_r. reflexivity.
  - destruct (Hjudge page io) as (response & io1 & Hget & Hparse & Hnext).
    rewrite (loop_body_next _ _ _ _ _ _ _ Hget Hparse Hnext).
    rewrite IH by lia. cbn [emit trace full_pages].
    rewrite (get_record_trace _ _ _ _ _ _ Hget), <- !app_assoc.
    reflexivity.
Qed.

(** X4. A judge that answers every GET with records and an enabled
    "Next" is asked for the pages 1 to [max_pages] and no more, and
    the collection pauses after each of them, the last included. *)
Theorem fetch_submissions_endless uid_or_name pid max_pages io :
  (forall page io, exists response io1,
      get_record uid_or_name pid page io = (inr response, io1) /\
      parse_submission_page (text response) <> [] /\
      has_next_page (text response) = true) ->
  trace (fetch_submissions uid_or_name pid max_pages io).2 =
    (trace io ++ full_pages uid_or_name pid 1 (Z.to_nat max_pages))%list /\
  fetched_pages (trace (fetch_submissions uid_or_name pid max_pages io).2) =
    (fetched_pages (trace io) ++ range 1 (max_pages + 1))%list.
Proof.
  intros Hjudge. unfold fetch_submissions. split.
  - apply fetch_loop_endless_trace; [exact Hjudge|f_equal; lia].
  - unfold range.
    rewrite (fetch_loop_endless uid_or_name pid max_pages
               (Z.to_nat max_pages) Hjudge 1 [] io) by (f_equal; lia).
    do 3 f_equal. lia.
Qed.

(** X15. Every collection ends in one of four ways, at a loop head
    that [collecting] describes: the page cap is passed; the GET
    fails; the page has no record; or the page has records and no
    enabled "Next".  In the first three the result is what had been
    gathered, in the last the records of that page come after it. *)
Theorem fetch_submissions_ends uid_or_name pid max_pages io0 :
  exists page submissions io,
    collecting uid_or_name pid max_pages io0 page submissions io /\
    ((max_pages < page /\
      fetch_submissions uid_or_name pid max_pages io0 = (submissions, io)) \/
     (page <= max_pages /\
      exists r io1,
        get_record uid_or_name pid page io = (r, io1) /\
        match r with
        | inl _ =>
            fetch_submissions uid_or_name pid max_pages io0 = (submissions, io1)
        | inr response =>
            (parse_submission_page (text response) = [] /\
             fetch_submissions uid_or_name pid max_pages io0 =
               (submissions, io1)) \/
            (parse_submission_page (text response) <> [] /\
             has_next_page (text response) = false /\
             fetch_submissions uid_or_name pid max_pages io0 =
               ((submissions ++ parse_submission_page (text response))%list,
                io1))
        end)).
Proof.
  destruct (fetch_submissions_run uid_or_name pid max_pages io0)
    as (page & submissions & io & Hrun & [Hcap|[Hle Hbody]]).
  - exists page, submissions, io. split; [exact Hrun|]. left. exact Hcap.
  - exists page, submissions, io. split; [exact Hrun|]. right.
    split; [exact Hle|]. unfold loop_body in Hbody.
    destruct (get_record uid_or_name pid page io) as [[e|response] io1].
    + exists (inl e), io1. split; [reflexivity|].
      injection Hbody as <-. reflexivity.
    + exists (inr response), io1. split; [reflexivity|].
      destruct (parse_submission_page (text response)) as [|sub rest].
      * left. split; [reflexivity|]. injection Hbody as <-. reflexivity.
      * right. split; [discriminate|].
        destruct (has_next_page (text response)); [discriminate|].
        split; [reflexivity|]. injection Hbody as <-. reflexivity.
Qed.

(** *** More on the parser *)

Lemma parse_rows_sound rows sub :
  In sub (parse_rows rows []) ->
  exists row, In row rows /\ well_formed_row row sub.
Proof.
  induction rows as [|row rows IH]; simpl; [contradiction|].
  destruct (Z.ltb_spec (len (find_all "td" row)) 7) as [Hshort|Hlen].
  - intros Hin. destruct (IH Hin) as (row' & Hrow' & Hwf).
    exists row'. split; [right; assumption|assumption].
  - destruct (make_submission (find_all "td" row)) as [e|sub'] eqn:Hsub.
    + intros Hin. destruct (IH Hin) as (row' & Hrow' & Hwf).
      exists row'. split; [right; assumption|assumption].
    + rewrite parse_rows_acc. intros [<-|Hin].
      * exists row. split; [left; reflexivity|]. split; [lia|assumption].
      * destruct (IH Hin) as (row' & Hrow' & Hwf).
        exists row'. split; [right; assumption|assumption].
Qed.

Lemma parse_rows_length rows :
  (length (parse_rows rows []) <= length rows)%nat.
Proof.
  induction rows as [|row rows IH]; simpl; [lia|].
  destruct (len (find_all "td" row) <? 7); [lia|].
  destruct (make_submission (find_all "td" row)); [lia|].
  rewrite parse_rows_acc. simpl. lia.
Qed.

(** X5. The records of a page are exactly the records of the rows
    after the first row of its first table that have seven cells or
    more and whose cells are read without an exception; there are
    never more records than such rows, so a table of one row or none
    gives no record. *)
Theorem parse_submission_page_exact html table :
  find "table" html = Some table ->
  (forall sub,
      In sub (parse_submission_page html) <->
      exists row, In row (drop 1 (find_all "tr" table)) /\
                  well_formed_row row sub) /\
  (length (parse_submission_page html) <=
   length (find_all "tr" table) - 1)%nat.
Proof.
  intros Htable. unfold parse_submission_page. rewrite Htable. split.
  - intros sub. split; [apply parse_rows_sound|].
    intros (row & Hin & Hwf). apply (parse_rows_keeps row); assumption.
  - rewrite <- length_drop. apply parse_rows_length.
Qed.

Lemma cell_text_app cols extra (i : nat) :
  (i < length cols)%nat ->
  cell_text (cols ++ extra) i = cell_text cols i.
Proof.
  intros Hi. unfold cell_text. rewrite nth_error_app1 by assumption.
  reflexivity.
Qed.

(** X6. Only the first eight cells of a row are read: cells after the
    eighth change nothing, whatever [get_text] would do on them. *)
Theorem make_submission_extra_cells cols extra :
  (8 <= length cols)%nat ->
  make_submission (cols ++ extra) = make_submission cols.
Proof.
  intros Hlen. unfold make_submission.
  rewrite !cell_text_app by lia.
  replace (7 <? len (cols ++ extra)) with true
    by (symmetry; apply Z.ltb_lt; unfold len; rewrite length_app; lia).
  replace (7 <? len cols) with true
    by (symmetry; apply Z.ltb_lt; unfold len; lia).
  reflexivity.
Qed.

(** *** More on [checker] and [main] *)

Lemma checker_no_key username pid st :
  result st !! username = None ->
  checker username pid st = inl (KeyError username).
Proof.
  intros Hkey. unfold checker.
  destruct (fetch_submissions username pid 5 (io st)) as [submissions io1].
  destruct (checker_loop 1 submissions _) as [outcome io3].
  unfold result_append. rewrite Hkey. reflexivity.
Qed.

(** X7. [checker] for a username that is not a key of [result] raises
    [KeyError] with that username, whatever the judge answers. *)
Theorem checker_missing_key username pid st :
  result st !! username = None ->
  checker username pid st = inl (KeyError username).
Proof. exact (checker_no_key username pid st). Qed.

Lemma checker_file_error username pid st outcomes e :
  result st !! username = Some outcomes ->
  open_w (output_file username pid) = Some e ->
  checker username pid st = inl e.
Proof.
  intros Hkey Hopen. unfold checker.
  destruct (fetch_submissions username pid 5 (io st)) as [submissions io1].
  destruct (checker_loop 1 submissions _) as [outcome io3].
  unfold result_append, save_to_file. rewrite Hkey, Hopen. reflexivity.
Qed.

Lemma checker_inv username pid st st' :
  checker username pid st = inr st' ->
  exists outcomes,
    result st !! username = Some outcomes /\
    open_w (output_file username pid) = None /\
    st' = mkState
            (<[username :=
                 (outcomes ++ [evaluate_spec
                     (fetch_submissions username pid 5 (io st)).1])%list]>
               (result st))
            (<[output_file username pid :=
                 JsonFile (fetch_submissions username pid 5 (io st)).1]>
               (files st))
            (checker_loop 1 (fetch_submissions username pid 5 (io st)).1
               (emit (Print (total_line
                               (fetch_submissions username pid 5 (io st)).1))
                  (fetch_submissions username pid 5 (io st)).2)).2.
Proof.
  destruct (result st !! username) as [outcomes|] eqn:Hkey.
  - destruct (open_w (output_file username pid)) as [e|] eqn:Hopen.
    + rewrite (checker_file_error username pid st outcomes e Hkey Hopen).
      discriminate.
    + destruct (checker_appends username pid st outcomes Hkey Hopen)
        as (submissions & io1 & Hfetch & Hchecker).
      rewrite Hchecker, Hfetch. intros [= <-]. exists outcomes.
      repeat split; reflexivity.
  - rewrite (checker_no_key username pid st Hkey). discriminate.
Qed.


(** *** The batch as a whole *)

Lemma for_pids_inv username pid pids st st' :
  for_pids username (pid :: pids) st = inr st' ->
  exists st1,
    checker username pid st = inr st1 /\ for_pids username pids st1 = inr st'.
Proof.
  simpl. destruct (checker username pid st) as [e|st1]; [discriminate|].
  intros Hrun. exists st1. split; [reflexivity|exact Hrun].
Qed.

Lemma for_members_inv usernameFormat i indices pids st st' :
  for_members usernameFormat (i :: indices) pids st = inr st' ->
  exists st2,
    for_pids (username_of usernameFormat i) pids
      (mkState (<[username_of usernameFormat i := []]> (result st))
         (files st) (io st)) = inr st2 /\
    for_members usernameFormat indices pids st2 = inr st'.
Proof.
  simpl. destruct (for_pids _ pids _) as [e|st2]; [discriminate|].
  intros Hrun. exists st2. split; [reflexivity|exact Hrun].
Qed.

Lemma main_inv usernameFormat counts pids st0 st :
  main usernameFormat counts pids st0 = inr st ->
  exists st1,
    batch usernameFormat counts pids st0 = inr st1 /\
    to_excel (result st1) pids = None /\
    st = mkState (result st1)
           (<["result.xlsx" := XlsxFile (result st1) pids]> (files st1))
           (io st1).
Proof.
  unfold main.
  destruct (batch usernameFormat counts pids st0) as [e|st1]; [discriminate|].
  simpl. unfold export.
  destruct (to_excel (result st1) pids) as [e|] eqn:Hexcel; [discriminate|].
  intros [= <-]. exists st1.
  split; [reflexivity|]. split; [exact Hexcel|reflexivity].
Qed.

Lemma for_pids_opens username pids :
  forall st st',
    for_pids username pids st = inr st' ->
    forall pid, In pid pids -> open_w (output_file username pid) = None.
Proof.
  induction pids as [|pid pids IH]; intros st st' Hrun pid' Hin;
    [contradiction|].
  destruct (for_pids_inv _ _ _ _ _ Hrun) as (st1 & Hchecker & Hrest).
  destruct Hin as [<-|Hin].
  - destruct (checker_inv _ _ _ _ Hchecker) as (outcomes & _ & Hopen & _).
    exact Hopen.
  - exact (IH st1 st' Hrest pid' Hin).
Qed.

Lemma for_members_opens usernameFormat pids indices :
  forall st st',
    for_members usernameFormat indices pids st = inr st' ->
    forall i pid, In i indices -> In pid pids ->
      open_w (output_file (username_of usernameFormat i) pid) = None.
Proof.
  induction indices as [|i indices IH]; intros st st' Hrun j pid Hj Hin;
    [contradiction|].
  destruct (for_members_inv _ _ _ _ _ _ Hrun) as (st2 & Hpids & Hrest).
  destruct Hj as [<-|Hj].
  - exact (for_pids_opens _ _ _ _ Hpids pid Hin).
  - exact (IH st2 st' Hrest j pid Hj Hin).
Qed.

Lemma for_pids_files username pids :
  forall st st',
    for_pids username pids st = inr st' ->
    forall f,
      is_Some (files st' !! f) <->
      is_Some (files st !! f) \/
      exists pid, In pid pids /\ f = output_file username pid.
Proof.
  induction pids as [|pid pids IH]; intros st st' Hrun f.
  - simpl in Hrun. injection Hrun as <-. split; [tauto|].
    intros [Hsome|(pid & [] & _)]. exact Hsome.
  - destruct (for_pids_inv _ _ _ _ _ Hrun) as (st1 & Hchecker & Hrest).
    rewrite (IH st1 st' Hrest f).
    destruct (checker_inv _ _ _ _ Hchecker) as (outcomes & _ & _ & ->).
    simpl.
    destruct (string_dec f (output_file username pid)) as [->|Hf].
    + rewrite lookup_insert_eq. split.
      * intros _. right. exists pid. split; [left|]; reflexivity.
      * intros _. left. eexists. reflexivity.
    + rewrite lookup_insert_ne by congruence. split.
      * intros [Hsome|(pid' & Hin & ->)]; [tauto|].
        right. exists pid'. split; [right; assumption|reflexivity].
      * intros [Hsome|(pid' & [<-|Hin] & ->)]; [tauto|contradiction|].
        right. exists pid'. split; [assumption|reflexivity].
Qed.

Lemma for_members_files usernameFormat pids indices :
  forall st st',
    for_members usernameFormat indices pids st = inr st' ->
    forall f,
      is_Some (files st' !! f) <->
      is_Some (files st !! f) \/
      exists i pid, In i indices /\ In pid pids /\
                    f = output_file (username_of usernameFormat i) pid.
Proof.
  induction indices as [|i indices IH]; intros st st' Hrun f.
  - simpl in Hrun. injection Hrun as <-. split; [tauto|].
    intros [Hsome|(i & pid & [] & _)]. exact Hsome.
  - destruct (for_members_inv _ _ _ _ _ _ Hrun) as (st2 & Hpids & Hrest).
    rewrite (IH st2 st' Hrest f).
    rewrite (for_pids_files _ _ _ _ Hpids f). simpl. split.
    + intros [[Hsome|(pid & Hin & ->)]|(j & pid & Hj & Hin & ->)].
      * tauto.
      * right. exists i, pid. split; [left; reflexivity|].
        split; [assumption|reflexivity].
      * right. exists j, pid. split; [right; assumption|].
        split; [assumption|reflexivity].
    + intros [Hsome|(j & pid & [<-|Hj] & Hin & ->)].
      * tauto.
      * left. right. exists pid. split; [assumption|reflexivity].
      * right. exists j, pid. split; [assumption|].
        split; [assumption|reflexivity].
Qed.

(** X11. A run of [main] from the fresh state that returns has
    written one file per job, the file [result.xlsx] with the grid and
    the problems as column labels, and no other file. *)
Theorem main_files usernameFormat counts pids w st :
  main usernameFormat counts pids (initial w) = inr st ->
  files st !! "result.xlsx" = Some (XlsxFile (result st) pids) /\
  forall f,
    is_Some (files st !! f) <->
    f = "result.xlsx" \/
    exists i pid, 1 <= i <= counts /\ In pid pids /\
                  f = output_file (username_of usernameFormat i) pid.
Proof.
  intros Hmain.
  destruct (main_inv _ _ _ _ _ Hmain) as (st1 & Hbatch & _ & ->).
  simpl. split; [apply lookup_insert_eq|]. intros f.
  destruct (string_dec f "result.xlsx") as [->|Hf].
  - rewrite lookup_insert_eq. split; [intros _; left; reflexivity|].
    intros _. eexists. reflexivity.
  - rewrite lookup_insert_ne by congruence.
    rewrite (for_members_files _ _ _ _ _ Hbatch f). simpl.
    rewrite lookup_empty. split.
    + intros [[x Hx]|(i & pid & Hi & Hin & ->)]; [discriminate|].
      apply in_range in Hi. right. exists i, pid.
      split; [lia|]. split; [assumption|reflexivity].
    + intros [Heq|(i & pid & Hi & Hin & ->)]; [contradiction|].
      right. exists i, pid.
      split; [apply in_range; lia|]. split; [assumption|reflexivity].
Qed.

Lemma fetched_pages_print tr line :
  fetched_pages (tr ++ [Print line]) = fetched_pages tr.
Proof. unfold fetched_pages. rewrite omap_app. simpl. apply app_nil_r. Qed.

Lemma checker_loop_fetched i submissions io :
  fetched_pages (trace (checker_loop i submissions io).2) =
    fetched_pages (trace io).
Proof.
  revert i io. induction submissions as [|sub rest IH]; intros i io; simpl;
    [reflexivity|].
  destruct (String.eqb (time sub) sentinel); simpl.
  - apply fetched_pages_print.
  - rewrite IH. simpl. apply fetched_pages_print.
Qed.

Lemma checker_requests username pid st st' :
  checker username pid st = inr st' ->
  (requests st' <= requests st + 5)%nat.
Proof.
  intros Hchecker.
  destruct (checker_inv _ _ _ _ Hchecker) as (outcomes & _ & _ & ->).
  unfold requests. simpl. rewrite checker_loop_fetched. simpl.
  rewrite fetched_pages_print.
  destruct (fetch_loop_pages username pid 5 5 1 [] (io st))
    as (k & Hk & Hpages); [reflexivity|].
  unfold fetch_submissions. rewrite Hpages.
  rewrite length_app, length_map, length_seq. lia.
Qed.

Lemma for_pids_requests username pids :
  forall st st',
    for_pids username pids st = inr st' ->
    (requests st' <= requests st + 5 * length pids)%nat.
Proof.
  induction pids as [|pid pids IH]; intros st st' Hrun.
  - simpl in Hrun. injection Hrun as <-. simpl. lia.
  - destruct (for_pids_inv _ _ _ _ _ Hrun) as (st1 & Hchecker & Hrest).
    apply IH in Hrest. apply checker_requests in Hchecker.
    simpl length. lia.
Qed.

Lemma for_members_requests usernameFormat pids indices :
  forall st st',
    for_members usernameFormat indices pids st = inr st' ->
    (requests st' <= requests st + 5 * length pids * length indices)%nat.
Proof.
  induction indices as [|i indices IH]; intros st st' Hrun.
  - simpl in Hrun. injection Hrun as <-. simpl. lia.
  - destruct (for_members_inv _ _ _ _ _ _ Hrun) as (st2 & Hpids & Hrest).
    apply IH in Hrest. apply for_pids_requests in Hpids.
    unfold requests in *. simpl in *. nia.
Qed.

(** X12. A batch sends at most five GETs per job: a run of [main] from
    the fresh state that returns has issued no more than 5 times
    [counts] times the number of problems, and none when [counts] is
    below 1. *)
Theorem main_requests usernameFormat counts pids w st :
  main usernameFormat counts pids (initial w) = inr st ->
  (requests st <= 5 * length pids * Z.to_nat counts)%nat.
Proof.
  intros Hmain.
  destruct (main_inv _ _ _ _ _ Hmain) as (st1 & Hbatch & _ & ->).
  apply for_members_requests in Hbatch.
  unfold range in Hbatch. rewrite length_map, length_seq in Hbatch.
  unfold requests in *. simpl in *.
  replace (Z.to_nat (counts + 1 - 1)) with (Z.to_nat counts) in Hbatch by lia.
  exact Hbatch.
Qed.

(** X13. A run of [main] that returns, from whatever state, has given
    each generated username a fresh entry with one outcome per
    problem, whatever the entry held before, and has left the entries
    of all other keys as they were. *)
Theorem main_resets_entries usernameFormat counts pids st0 st :
  main usernameFormat counts pids st0 = inr st ->
  (forall i, 1 <= i <= counts ->
     exists outcomes,
       result st !! username_of usernameFormat i = Some outcomes /\
       length outcomes = length pids) /\
  (forall u,
      (forall i, 1 <= i <= counts -> u <> username_of usernameFormat i) ->
      result st !! u = result st0 !! u).
Proof.
  intros Hmain.
  destruct (main_inv _ _ _ _ _ Hmain) as (st1 & Hbatch & _ & ->).
  simpl.
  destruct (for_members_grid usernameFormat pids (range 1 (counts + 1))
              st0 (NoDup_usernames usernameFormat counts)
              (for_members_opens _ _ _ _ _ Hbatch))
    as (st1' & Hbatch' & Hgrid & Hother).
  unfold batch in Hbatch. rewrite Hbatch in Hbatch'.
  injection Hbatch' as <-. split.
  - intros i Hi.
    destruct (Hgrid i) as (outcomes & io_a & io_b & Hkey & Hrow);
      [apply in_range; lia|].
    exists outcomes. split; [exact Hkey|].
    symmetry. exact (Forall2_length _ _ _ (row_outcomes_Forall2 _ _ _ _ _ Hrow)).
  - intros u Hu. apply Hother. intros Hin.
    apply in_map_iff in Hin as (i & Heq & Hi). apply in_range in Hi.
    apply (Hu i); [lia|]. symmetry. exact Heq.
Qed.

End Scraper.

Arguments mkIO {World} world trace.
Arguments world {World} i.
Arguments trace {World} i.
Arguments emit {World} ev io.
Arguments mkState {World} result files io.
Arguments result {World} s.
Arguments files {World} s.
Arguments io {World} s.
Arguments initial {World} w.
Arguments get_record {World} session_get uid_or_name pid page io.
Arguments loop_body get_text {World} session_get uid_or_name pid page submissions io.
Arguments fetch_loop get_text {World} session_get uid_or_name pid max_pages page submissions io.
Arguments fetch_submissions get_text {World} session_get uid_or_name pid max_pages io.
Arguments checker_loop {World} i submissions io.
Arguments checker get_text {World} session_get open_w username pid st.
Arguments for_pids get_text {World} session_get open_w username pids st.
Arguments for_members get_text {World} session_get open_w usernameFormat indices pids st.
Arguments batch get_text {World} session_get open_w usernameFormat counts pids st.
Arguments export {World} to_excel pids st.
Arguments main get_text {World} session_get open_w to_excel usernameFormat counts pids st.
Arguments transport_failure {World} session_get uid_or_name pid page io.
Arguments collecting get_text {World} session_get uid_or_name pid max_pages io0 _ _ _.
Arguments row_outcomes get_text {World} session_get username _ _ _ _.
Arguments requests {World} st.

(** ** The parser on pages of well-formed rows *)

(** C2. Let [get_text] raise on no cell of the data rows, and let
    [txt] name the text it returns.  A page whose first table has a
    header row and then N data rows of at least seven cells each
    parses to N records in row order; the fields of each record are
    the texts of the cells 0 to 6 of its row, and [memory_used] is the
    text of cell 7 when there is one and "N/A" otherwise. *)
Theorem parse_submission_page_well_formed
    (get_text : PageElement -> Exception + string)
    (txt : PageElement -> string) html table header rows :
  find "table" html = Some table ->
  find_all "tr" table = header :: rows ->
  Forall (fun row => 7 <= len (find_all "td" row)) rows ->
  (forall row c, In row rows -> In c (find_all "td" row) ->
                 get_text c = inr (txt c)) ->
  length (parse_submission_page get_text html) = length rows /\
  Forall2 (positional txt) rows (parse_submission_page get_text html).
Proof.
  intros Htable Hrows Hcells Htext.
  assert (Hall : Forall2 (positional txt) rows
                   (parse_submission_page get_text html)).
  { unfold parse_submission_page. rewrite Htable, Hrows.
    apply parse_rows_positional; assumption. }
  split; [|exact Hall].
  symmetry. exact (Forall2_length _ _ _ Hall).
Qed.

(** ** Usernames and file names of a batch *)

Lemma append_String (c : ascii) (s t : string) :
  String.append (String c s) t = String c (String.append s t).
Proof. reflexivity. Qed.

Lemma length_append (s t : string) :
  String.length (String.append s t) = (String.length s + String.length t)%nat.
Proof.
  induction s as [|c s IH]; [reflexivity|].
  rewrite append_String. simpl. rewrite IH. reflexivity.
Qed.

Lemma append_cancel_r (s1 s2 t : string) :
  String.append s1 t = String.append s2 t -> s1 = s2.
Proof.
  revert s2. induction s1 as [|c s1 IH]; intros [|c' s2] Heq.
  - reflexivity.
  - apply (f_equal String.length) in Heq.
    rewrite !length_append in Heq. simpl in Heq. lia.
  - apply (f_equal String.length) in Heq.
    rewrite !length_append in Heq. simpl in Heq. lia.
  - rewrite !append_String in Heq. injection Heq as -> Heq.
    rewrite (IH s2 Heq). reflexivity.
Qed.

Lemma split_at_first (c : ascii) (a b r1 r2 : string) :
  occurs c a = false -> occurs c b = false ->
  String.append a (String c r1) = String.append b (String c r2) ->
  a = b /\ r1 = r2.
Proof.
  revert b. induction a as [|x a IH]; intros [|y b] Ha Hb Heq.
  - injection Heq as ->. split; reflexivity.
  - rewrite append_String in Heq. injection Heq as <- _.
    simpl in Hb. rewrite Ascii.eqb_refl in Hb. discriminate.
  - rewrite append_String in Heq. injection Heq as -> _.
    simpl in Ha. rewrite Ascii.eqb_refl in Ha. discriminate.
  - rewrite !append_String in Heq. injection Heq as -> Heq.
    simpl in Ha, Hb.
    apply orb_false_iff in Ha as [_ Ha]. apply orb_false_iff in Hb as [_ Hb].
    destruct (IH b Ha Hb Heq) as [-> ->]. split; reflexivity.
Qed.

Lemma occurs_string_of_uint (d : Decimal.uint) :
  occurs "_" (NilEmpty.string_of_uint d) = false.
Proof. induction d; simpl; assumption || reflexivity. Qed.

Lemma occurs_str (i : Z) : 0 < i -> occurs "_" (str i) = false.
Proof.
  destruct i as [|p|p]; try lia. intros _.
  rewrite str_pos. apply occurs_string_of_uint.
Qed.

Lemma append_cancel_prefix (s s1 s2 : string) :
  String.append s s1 = String.append s s2 -> s1 = s2.
Proof.
  induction s as [|c s IH]; intros Heq; [exact Heq|].
  rewrite !append_String in Heq. injection Heq as Heq. exact (IH Heq).
Qed.

Lemma username_of_suffix usernameFormat (k : Z) :
  1 <= k ->
  exists suffix,
    username_of usernameFormat k = String.append usernameFormat suffix /\
    occurs "_" suffix = false /\
    suffix = if 9 <? k then str k else String "0" (str k).
Proof.
  intros Hk. unfold username_of. destruct (9 <? k).
  - exists (str k). split; [reflexivity|].
    split; [apply occurs_str; lia|reflexivity].
  - exists (String "0" (str k)). split; [apply append_assoc|].
    split; [|reflexivity].
    change (occurs "_" (str k) = false). apply occurs_str. lia.
Qed.

Lemma suffix_inj (i j : Z) :
  1 <= i -> 1 <= j ->
  (if 9 <? i then str i else String "0" (str i)) =
  (if 9 <? j then str j else String "0" (str j)) ->
  i = j.
Proof.
  intros Hi Hj.
  destruct (Z.ltb_spec 9 i) as [Hi9|Hi9], (Z.ltb_spec 9 j) as [Hj9|Hj9];
    intros Heq.
  - apply str_inj; [lia|lia|exact Heq].
  - destruct (str_no_leading_zero i) as (c & s & Hs & Hc); [lia|].
    rewrite Hs in Heq. injection Heq as Hc' _. contradiction.
  - destruct (str_no_leading_zero j) as (c & s & Hs & Hc); [lia|].
    rewrite Hs in Heq. injection Heq as Hc' _. symmetry in Hc'.
    contradiction.
  - injection Heq as Heq. apply str_inj; [lia|lia|exact Heq].
Qed.

(** X9. Two different indices from 1 on never give the same username. *)
Theorem username_of_distinct usernameFormat (i j : Z) :
  1 <= i -> 1 <= j -> i <> j ->
  username_of usernameFormat i <> username_of usernameFormat j.
Proof.
  intros Hi Hj Hne Heq. apply Hne.
  destruct (username_of_suffix usernameFormat i Hi) as (a & Hua & _ & ->).
  destruct (username_of_suffix usernameFormat j Hj) as (b & Hub & _ & ->).
  rewrite Hua, Hub in Heq. apply append_cancel_prefix in Heq.
  exact (suffix_inj i j Hi Hj Heq).
Qed.

(** X10. In a batch, two jobs with different members or different
    problems write to different files: the file name of a job gives
    back its index and its problem. *)
Theorem output_file_distinct usernameFormat (i j : Z) (pid1 pid2 : string) :
  1 <= i -> 1 <= j ->
  output_file (username_of usernameFormat i) pid1 =
    output_file (username_of usernameFormat j) pid2 ->
  i = j /\ pid1 = pid2.
Proof.
  intros Hi Hj Heq. unfold output_file in Heq.
  apply append_cancel_prefix in Heq.
  destruct (username_of_suffix usernameFormat i Hi) as (a & Hua & Ha & Hsa).
  destruct (username_of_suffix usernameFormat j Hj) as (b & Hub & Hb & Hsb).
  rewrite Hua, Hub, !append_assoc in Heq.
  apply append_cancel_prefix in Heq.
  change (String.append "_" (String.append pid1 ".json"))
    with (String "_" (String.append pid1 ".json")) in Heq.
  change (String.append "_" (String.append pid2 ".json"))
    with (String "_" (String.append pid2 ".json")) in Heq.
  destruct (split_at_first "_" a b _ _ Ha Hb Heq) as [Hab Hpid].
  apply append_cancel_r in Hpid. split; [|exact Hpid].
  apply (suffix_inj i j Hi Hj). rewrite <- Hsa, <- Hsb. exact Hab.
Qed.

(** ** The statements at sample pages and judges *)

Lemma checker_loop_first_sentinel_witness :
  checker_loop 1 [Sample.rejected; Sample.accepted; Sample.rejected]
    (mkIO tt []) =
    (1, mkIO tt (prints 1 [Sample.rejected; Sample.accepted])) /\
  checker_loop 1 [Sample.rejected; Sample.rejected] (mkIO tt []) =
    (0, mkIO tt (prints 1 [Sample.rejected; Sample.rejected])).
Proof.
  split.
  - apply (proj1 (checker_loop_first_sentinel unit
             [Sample.rejected; Sample.accepted; Sample.rejected]
             (mkIO tt []))
             [Sample.rejected] Sample.accepted [Sample.rejected]).
    + reflexivity.
    + constructor; [discriminate|constructor].
    + reflexivity.
  - apply (proj1 (proj2 (checker_loop_first_sentinel unit
             [Sample.rejected; Sample.rejected] (mkIO tt [])))).
    constructor; [discriminate|]. constructor; [discriminate|constructor].
Defined.

Lemma parse_submission_page_well_formed_witness :
  length (parse_submission_page Tag_get_text Sample.page_two_rows) = 2%nat /\
  Forall2 (positional text_of) [Sample.row7; Sample.row8]
    (parse_submission_page Tag_get_text Sample.page_two_rows).
Proof.
  apply (parse_submission_page_well_formed Tag_get_text text_of
           Sample.page_two_rows
           (Sample.table [Sample.row7; Sample.row8]) Sample.header
           [Sample.row7; Sample.row8]).
  - reflexivity.
  - reflexivity.
  - constructor; [vm_compute; discriminate|].
    constructor; [vm_compute; discriminate|constructor].
  - intros row c _ _. reflexivity.
Defined.

Lemma parse_skips_malformed_row_witness :
  parse_submission_page Tag_get_text Sample.page_with_short_row =
    (parse_rows Tag_get_text [Sample.row7] [] ++
     parse_rows Tag_get_text [Sample.row8] [])%list /\
  parse_submission_page Sample.brittle_get_text Sample.page_with_blank_row =
    (parse_rows Sample.brittle_get_text [Sample.row7] [] ++
     parse_rows Sample.brittle_get_text [Sample.row8] [])%list.
Proof.
  split.
  - apply (parse_skips_malformed_row Tag_get_text Sample.page_with_short_row
             (Sample.table [Sample.row7; Sample.short_row; Sample.row8])
             Sample.header [Sample.row7] Sample.short_row [Sample.row8]).
    + reflexivity.
    + reflexivity.
    + left. vm_compute. reflexivity.
  - apply (parse_skips_malformed_row Sample.brittle_get_text
             Sample.page_with_blank_row
             (Sample.table [Sample.row7; Sample.blank_row; Sample.row8])
             Sample.header [Sample.row7] Sample.blank_row [Sample.row8]).
    + reflexivity.
    + reflexivity.
    + right. exists (OtherException "empty cell"). reflexivity.
Defined.

(** C4 as it is worded fails: on [Sample.page_two_next] an anchor with
    the text "Next" and without the class "disabled" is present, and
    [has_next_page] is false. *)
Lemma has_next_page_some_enabled_anchor_counterexample :
  ~ (has_next_page Sample.page_two_next = true <->
     exists a, In a (descendants Sample.page_two_next) /\
               is_next_anchor a = true /\ disabled a = false).
Proof.
  intros [_ Hclaim].
  assert (Htrue : has_next_page Sample.page_two_next = true).
  { apply Hclaim. exists (Sample.anchor (Some ["page-link"]) "Next").
    split; [|split; reflexivity].
    vm_compute. do 37 right. left. reflexivity. }
  vm_compute in Htrue. discriminate Htrue.
Qed.

Lemma has_next_page_iff_first_enabled_witness :
  has_next_page Sample.page_with_next = true.
Proof.
  apply (proj2 (has_next_page_iff_first_enabled Sample.page_with_next)).
  exists (Sample.anchor (Some ["page-link"]) "Next"). split; [|reflexivity].
  exists (firstn 52 (descendants Sample.page_with_next)), [NavigableString "Next"].
  split; [vm_compute; reflexivity|]. split; [|reflexivity].
  apply (bool_decide_unpack _). vm_compute. exact I.
Defined.

Lemma has_next_page_first_anchor_decides_witness :
  has_next_page Sample.page_two_next = false /\
  find_string "a" "Next" Sample.page_near_next <> Some (Sample.anchor None " Next ") /\
  has_next_page Sample.page_near_next = false.
Proof.
  destruct has_next_page_first_anchor_decides
    as (Hfirst & _ & Hnever & Hnone).
  split; [|split].
  - apply (Hfirst Sample.page_two_next
             (Sample.anchor (Some ["page-link"; "disabled"]) "Next")).
    exists (firstn 35 (descendants Sample.page_two_next)),
      (skipn 36 (descendants Sample.page_two_next)).
    split; [vm_compute; reflexivity|]. split; [|reflexivity].
    apply (bool_decide_unpack _). vm_compute. exact I.
  - apply Hnever. discriminate.
  - apply Hnone. intros a Hin.
    apply (bool_decide_unpack _). revert a Hin.
    apply List.Forall_forall. apply (bool_decide_unpack _).
    vm_compute. exact I.
Defined.

(** A judge that never runs out of pages is asked for exactly
    [max_pages] of them. *)
Example fetch_submissions_endless_judge :
  fetched_pages
    (trace (fetch_submissions Tag_get_text
              (Sample.constant_get Sample.page_with_next) "stu01" "P1" 3
              (mkIO tt [])).2) = [1; 2; 3].
Proof.
  unfold fetch_submissions.
  rewrite (fetch_loop_endless Tag_get_text unit
             (Sample.constant_get Sample.page_with_next) "stu01" "P1" 3 3).
  - reflexivity.
  - intros page io. eexists _, _. split; [reflexivity|].
    split; [discriminate|reflexivity].
  - reflexivity.
Qed.

Lemma fetch_submissions_transport_failure_witness :
  exists io',
    fetch_submissions Tag_get_text Sample.scripted_get "stu01" "P1" 5
      (mkIO Sample.outage []) =
      (parse_submission_page Tag_get_text Sample.page_with_next, io') /\
    trace io' =
      [GET "https://tzhsoj.cn/record" (mkParams "stu01" "P1" "" "" "" 1);
       Sleep 1;
       GET "https://tzhsoj.cn/record" (mkParams "stu01" "P1" "" "" "" 2)].
Proof.
  pose (io0 := mkIO Sample.outage []).
  pose (io1 := (get_record Sample.scripted_get "stu01" "P1" 1 io0).2).
  apply (fetch_submissions_transport_failure Tag_get_text Sample.Script
           Sample.scripted_get "stu01" "P1" 5 io0 2
           (parse_submission_page Tag_get_text Sample.page_with_next)
           (emit (Sleep 1) io1)).
  - apply (collecting_next Tag_get_text Sample.Script Sample.scripted_get
             "stu01" "P1" 5 io0 1 [] io0
             (mkResponse 200 Sample.page_with_next) io1).
    + constructor.
    + lia.
    + reflexivity.
    + discriminate.
    + reflexivity.
  - lia.
  - unfold transport_failure. simpl. lia.
Defined.

Lemma fetch_submissions_empty_page_witness :
  fetch_submissions Tag_get_text Sample.scripted_get "stu01" "P1" 5
    (mkIO Sample.no_records []) =
    ([], mkIO [] [GET "https://tzhsoj.cn/record"
                    (mkParams "stu01" "P1" "" "" "" 1)]) /\
  fetch_submissions Tag_get_text Sample.scripted_get "stu01" "P1" 5
    (mkIO Sample.no_records []) =
    ([], (get_record Sample.scripted_get "stu01" "P1" 1
            (mkIO Sample.no_records [])).2).
Proof.
  destruct (fetch_submissions_empty_page Tag_get_text Sample.Script
              Sample.scripted_get "stu01" "P1" 5 (mkIO Sample.no_records []))
    as (Hstop & Hnone & Hfirst).
  split.
  - apply (Hfirst (mkResponse 200 Sample.page_without_table));
      [lia|reflexivity|reflexivity].
  - apply (Hstop 1 [] (mkIO Sample.no_records [])
             (mkResponse 200 Sample.page_without_table)).
    + constructor.
    + lia.
    + reflexivity.
    + apply Hnone. reflexivity.
Defined.

Lemma username_of_padding_witness :
  username_of "stu" 7 = "stu07" /\ username_of "stu" 12 = "stu12" /\
  option_map Z.of_int (NilZero.int_of_string (str 12)) = Some 12.
Proof.
  destruct (username_of_padding "stu") as (_ & Hpad & Hplain & _).
  split; [|split].
  - apply (Hpad 7). lia.
  - apply (Hplain 12). lia.
  - apply (Hplain 12). lia.
Defined.




(** Two members and one problem: two keys, one outcome each.  The
    judge shows a record whose first cell is the sentinel, so both
    outcomes are 1; with the sample page, whose records are accepted
    with score 100 but carry a date in the first cell, both are 0. *)
Example main_two_members :
  (exists st,
      main Tag_get_text (Sample.constant_get Sample.page_accepted)
        Sample.flat_directory Sample.export_ok
        "stu" 2 ["P1"] (initial tt) = inr st /\
      result st !! "stu01" = Some [1] /\ result st !! "stu02" = Some [1] /\
      size (result st) = 2%nat) /\
  (exists st,
      main Tag_get_text (Sample.constant_get Sample.page_two_rows)
        Sample.flat_directory Sample.export_ok
        "stu" 2 ["P1"] (initial tt) = inr st /\
      result st !! "stu01" = Some [0] /\ result st !! "stu02" = Some [0] /\
      size (result st) = 2%nat).
Proof.
  split; eexists; (split; [vm_compute; reflexivity|]);
    repeat split; vm_compute; reflexivity.
Qed.

(** ** The further statements at sample pages and judges *)

Lemma fetch_submissions_extends_witness :
  exists rest,
    (fetch_submissions Tag_get_text Sample.scripted_get "stu01" "P1" 5
       (mkIO Sample.two_pages [])).1 =
      (parse_submission_page Tag_get_text Sample.page_with_next ++ rest)%list.
Proof.
  pose (io0 := mkIO Sample.two_pages []).
  pose (io1 := (get_record Sample.scripted_get "stu01" "P1" 1 io0).2).
  apply (fetch_submissions_extends Tag_get_text Sample.Script
           Sample.scripted_get "stu01" "P1" 5 io0 2
           (parse_submission_page Tag_get_text Sample.page_with_next)
           (emit (Sleep 1) io1)).
  apply (collecting_next Tag_get_text Sample.Script Sample.scripted_get
           "stu01" "P1" 5 io0 1 [] io0
           (mkResponse 200 Sample.page_with_next) io1).
  - constructor.
  - lia.
  - reflexivity.
  - discriminate.
  - reflexivity.
Defined.

Lemma fetch_submissions_last_page_witness :
  (fetch_submissions Tag_get_text Sample.scripted_get "stu01" "P1" 5
     (mkIO Sample.two_pages [])).1 =
    (parse_submission_page Tag_get_text Sample.page_with_next ++
     parse_submission_page Tag_get_text Sample.page_two_rows)%list.
Proof.
  pose (io0 := mkIO Sample.two_pages []).
  pose (io1 := (get_record Sample.scripted_get "stu01" "P1" 1 io0).2).
  pose (io2 := emit (Sleep 1) io1).
  pose (io3 := (get_record Sample.scripted_get "stu01" "P1" 2 io2).2).
  destruct (fetch_submissions_last_page Tag_get_text Sample.Script
              Sample.scripted_get "stu01" "P1" 5 io0 2
              (parse_submission_page Tag_get_text Sample.page_with_next)
              io2 (mkResponse 200 Sample.page_two_rows) io3) as [Hlast _].
  - apply (collecting_next Tag_get_text Sample.Script Sample.scripted_get
             "stu01" "P1" 5 io0 1 [] io0
             (mkResponse 200 Sample.page_with_next) io1).
    + constructor.
    + lia.
    + reflexivity.
    + discriminate.
    + reflexivity.
  - lia.
  - reflexivity.
  - discriminate.
  - reflexivity.
  - change (mkIO Sample.two_pages []) with io0. rewrite Hlast. reflexivity.
Defined.

Lemma fetch_submissions_endless_witness :
  fetched_pages
    (trace (fetch_submissions Tag_get_text
              (Sample.constant_get Sample.page_with_next) "stu01" "P1" 3
              (mkIO tt [])).2) = [1; 2; 3].
Proof.
  apply (proj2 (fetch_submissions_endless Tag_get_text unit
                  (Sample.constant_get Sample.page_with_next)
                  "stu01" "P1" 3 (mkIO tt [])
                  (fun page io =>
                     ex_intro _ (mkResponse 200 Sample.page_with_next)
                       (ex_intro _ _
                          (conj eq_refl
                             (conj (fun H => eq_ind
                                      (parse_submission_page Tag_get_text
                                         Sample.page_with_next)
                                      (fun l => match l with
                                                | [] => False
                                                | _ => True
                                                end) I [] H)
                                eq_refl)))))).
Defined.

Lemma parse_submission_page_exact_witness :
  (length (parse_submission_page Tag_get_text Sample.page_with_short_row)
   <= 3)%nat.
Proof.
  apply (proj2 (parse_submission_page_exact Tag_get_text
                  Sample.page_with_short_row
                  (Sample.table [Sample.row7; Sample.short_row; Sample.row8])
                  eq_refl)).
Defined.

Lemma make_submission_extra_cells_witness :
  make_submission Sample.brittle_get_text
    (Sample.nine_cells ++ [Sample.td " "]) =
  make_submission Sample.brittle_get_text Sample.nine_cells.
Proof.
  apply (make_submission_extra_cells Sample.brittle_get_text
           Sample.nine_cells [Sample.td " "]).
  simpl. lia.
Defined.

Lemma checker_missing_key_witness :
  checker Tag_get_text Sample.scripted_get Sample.flat_directory "stu01" "P1"
    (initial Sample.two_pages) = inl (KeyError "stu01").
Proof.
  apply (checker_missing_key Tag_get_text Sample.Script Sample.scripted_get
           Sample.flat_directory "stu01" "P1" (initial Sample.two_pages)).
  apply lookup_empty.
Defined.


Lemma username_of_distinct_witness :
  username_of "stu" 3 <> username_of "stu" 12.
Proof. apply (username_of_distinct "stu" 3 12); lia. Defined.

Lemma output_file_distinct_witness :
  (1 = 1 /\ "P1" = "P1") /\
  output_file (username_of "stu" 1) "P1" = "submissions_stu01_P1.json".
Proof.
  split; [|reflexivity].
  apply (output_file_distinct "stu" 1 1 "P1" "P1"); [lia|lia|reflexivity].
Defined.

Lemma main_files_witness :
  exists st,
    main Tag_get_text Sample.scripted_get Sample.flat_directory
      Sample.export_ok "stu" 2 ["P1"] (initial Sample.two_pages) = inr st /\
    is_Some (files st !! "submissions_stu02_P1.json") /\
    files st !! "result.xlsx" = Some (XlsxFile (result st) ["P1"]).
Proof.
  destruct (main Tag_get_text Sample.scripted_get Sample.flat_directory
              Sample.export_ok "stu" 2 ["P1"] (initial Sample.two_pages))
    as [e|st] eqn:Hmain.
  - vm_compute in Hmain. discriminate Hmain.
  - exists st. split; [reflexivity|].
    destruct (main_files Tag_get_text Sample.Script Sample.scripted_get
                Sample.flat_directory Sample.export_ok
                "stu" 2 ["P1"] Sample.two_pages st Hmain) as [Hgrid Hfiles].
    split; [|exact Hgrid].
    apply Hfiles. right. exists 2, "P1".
    split; [lia|]. split; [left; reflexivity|reflexivity].
Defined.

Lemma main_requests_witness :
  exists st,
    main Tag_get_text Sample.scripted_get Sample.flat_directory
      Sample.export_ok "stu" 2 ["P1"] (initial Sample.two_pages) = inr st /\
    (requests st <= 10)%nat.
Proof.
  destruct (main Tag_get_text Sample.scripted_get Sample.flat_directory
              Sample.export_ok "stu" 2 ["P1"] (initial Sample.two_pages))
    as [e|st] eqn:Hmain.
  - vm_compute in Hmain. discriminate Hmain.
  - exists st. split; [reflexivity|].
    exact (main_requests Tag_get_text Sample.Script Sample.scripted_get
             Sample.flat_directory Sample.export_ok
             "stu" 2 ["P1"] Sample.two_pages st Hmain).
Defined.

Lemma main_resets_entries_witness :
  exists st,
    main Tag_get_text Sample.scripted_get Sample.flat_directory
      Sample.export_ok "stu" 2 ["P1"]
      (mkState (<["stu01" := [1; 1; 1]]> (<["old" := [0]]> ∅)) ∅
         (mkIO Sample.two_pages [])) = inr st /\
    (exists outcomes,
        result st !! "stu01" = Some outcomes /\ length outcomes = 1%nat) /\
    result st !! "old" = Some [0].
Proof.
  destruct (main Tag_get_text Sample.scripted_get Sample.flat_directory
              Sample.export_ok "stu" 2 ["P1"]
              (mkState (<["stu01" := [1; 1; 1]]> (<["old" := [0]]> ∅)) ∅
                 (mkIO Sample.two_pages [])))
    as [e|st] eqn:Hmain.
  - vm_compute in Hmain. discriminate Hmain.
  - exists st. split; [reflexivity|].
    destruct (main_resets_entries Tag_get_text Sample.Script
                Sample.scripted_get Sample.flat_directory Sample.export_ok
                "stu" 2 ["P1"] _ st Hmain) as (Hgrid & Hother).
    split.
    + apply (Hgrid 1). lia.
    + rewrite (Hother "old").
      * reflexivity.
      * intros i Hi Heq.
        assert (Hcases : i = 1 \/ i = 2) by lia.
        destruct Hcases as [->| ->]; vm_compute in Heq; discriminate Heq.
Defined.
